(** * Cross-chain-system: token decimals and pool metrics fetchers

    A shallow embedding of [GET_DECIMALS/get_decimals.py] (class
    [DecimalsFetcher]) and [GET_POOL/token_data_fetcher.py] (class
    [TokenDataFetcher]), the properties of both that the design
    document states, and further properties that the code shows.

    Conventions of the embedding.
    - A Python [str] is a Rocq [string]; a character is the code point of the
      same number, so the strings covered are those over U+0000..U+00FF.
      Whitespace, lower-casing and digits are Python's on that range.
    - [Optional[str]] is [option string]; Python truthiness is written out
      ([truthy], [or_else]).
    - A [try/except Exception] is a [match] on a result of type [exn + A].
    - The network, the spreadsheet files and the HTML parser are outside the
      repository: they enter as records and classes whose fields are the
      calls the code makes ([Rpc], [Http], [Disk], [BS4], [Regex]).
    - Requests that are sent, and strategies that are invoked, are recorded
      in a list next to the returned value ([Traced]). *)

From Stdlib Require Import ZArith Lia Bool Ascii String DecimalString.
From stdpp Require Import base list strings gmap.

Local Open Scope Z_scope.

(* ===================================================================== *)
(** * Python built-ins used by the two programs                          *)
(* ===================================================================== *)

Module Py.

(** The double quote, for the literals of the source that contain one. *)
Definition dq : string := String (ascii_of_nat 34) "".

(** ** Exceptions and results *)

Inductive request_error := Timeout | ConnectionError | HTTPError | OtherRequestError.

Inductive exn :=
| RequestException (e : request_error)
| ValueError
| TypeError
| AttributeError
| IndexError
| FileNotFoundError
| OSError
| JSONDecodeError.

(** What a call does: return, raise, or never come back. *)
Inductive outcome (A : Type) :=
| Returns (a : A)
| Raises (e : exn)
| Diverges.
Arguments Returns {A} a.
Arguments Raises {A} e.
Arguments Diverges {A}.

Definition obind {A B} (m : outcome A) (k : A → outcome B) : outcome B :=
  match m with
  | Returns a => k a
  | Raises e => Raises e
  | Diverges => Diverges
  end.

(** ** str *)

(** [str.isspace] on one character (U+0009..U+000D, U+001C..U+0020, U+0085,
    U+00A0). *)
Definition isspace (c : ascii) : bool :=
  let n := N_of_ascii c in
  ((9 <=? n) && (n <=? 13) || (28 <=? n) && (n <=? 32) || (n =? 133) || (n =? 160))%N.

Fixpoint lstrip_chars (p : ascii → bool) (s : string) : string :=
  match s with
  | String c s' => if p c then lstrip_chars p s' else s
  | EmptyString => EmptyString
  end.

Fixpoint rstrip_chars (p : ascii → bool) (s : string) : string :=
  match s with
  | String c s' =>
      match rstrip_chars p s' with
      | EmptyString => if p c then EmptyString else String c EmptyString
      | r => String c r
      end
  | EmptyString => EmptyString
  end.

(** [s.strip()] *)
Definition strip (s : string) : string :=
  rstrip_chars isspace (lstrip_chars isspace s).

(** [s.lstrip('0')] *)
Definition lstrip_zeros (s : string) : string :=
  lstrip_chars (Ascii.eqb "0") s.

(** [s.startswith(p)] *)
Fixpoint startswith (s p : string) {struct p} : bool :=
  match p, s with
  | EmptyString, _ => true
  | String a p', String b s' => Ascii.eqb a b && startswith s' p'
  | String _ _, EmptyString => false
  end.

(** [s[n:]] *)
Fixpoint drop (n : nat) (s : string) : string :=
  match n, s with
  | O, _ => s
  | S n', String _ s' => drop n' s'
  | S _, EmptyString => EmptyString
  end.

(** [bool(s)] *)
Definition truthy (s : string) : bool :=
  match s with EmptyString => false | String _ _ => true end.

(** [bool(o)] for an [Optional[str]] *)
Definition truthy_opt (o : option string) : bool :=
  match o with Some s => truthy s | None => false end.

(** [o or d] for an [Optional[str]] [o] *)
Definition or_else (o : option string) (d : string) : string :=
  match o with
  | Some s => if truthy s then s else d
  | None => d
  end.

(** [c.lower()] on one character: A..Z, and U+00C0..U+00DE but U+00D7. *)
Definition lower_char (c : ascii) : ascii :=
  let n := N_of_ascii c in
  if ((65 <=? n) && (n <=? 90) || (192 <=? n) && (n <=? 222) && negb (n =? 215))%N
  then ascii_of_N (n + 32) else c.

Fixpoint lower (s : string) : string :=
  match s with
  | String c s' => String (lower_char c) (lower s')
  | EmptyString => EmptyString
  end.

(** [s.replace(old, new)] for a non-empty [old]: occurrences are replaced
    from the left and do not overlap. *)
Fixpoint replace_from (skip : nat) (old new s : string) : string :=
  match s with
  | EmptyString => EmptyString
  | String c s' =>
      match skip with
      | S k => replace_from k old new s'
      | O =>
          if startswith s old
          then new +:+ replace_from (String.length old - 1) old new s'
          else String c (replace_from 0 old new s')
      end
  end.

Definition replace (s old new : string) : string := replace_from 0 old new s.

(** ** int(s, 16) *)

(** Whitespace that [int] skips around the number. *)
Definition int_space (c : ascii) : bool :=
  let n := N_of_ascii c in
  ((9 <=? n) && (n <=? 13) || (n =? 32) || (n =? 133) || (n =? 160))%N.

Definition hex_digit (c : ascii) : option Z :=
  let n := Z.of_N (N_of_ascii c) in
  if (48 <=? n) && (n <=? 57) then Some (n - 48)
  else if (97 <=? n) && (n <=? 102) then Some (n - 87)
  else if (65 <=? n) && (n <=? 70) then Some (n - 55)
  else None.

(** The digits of the number, single underscores allowed between them.
    [acc] is the value read so far, [n] the number of digits read,
    [us] whether the character before was an underscore.  The result is the
    value, the number of digits and the unread rest; an underscore that is
    doubled or last is an error. *)
Fixpoint scan_digits (acc : Z) (n : nat) (us : bool) (s : string)
  : option (Z * nat * string) :=
  match s with
  | String c s' =>
      if Ascii.eqb c "_" then
        if us then None else scan_digits acc n true s'
      else
        match hex_digit c with
        | Some d => scan_digits (16 * acc + d) (S n) false s'
        | None => if us then None else Some (acc, n, s)
        end
  | EmptyString => if us then None else Some (acc, n, EmptyString)
  end.

Definition strip_sign (s : string) : Z * string :=
  match s with
  | String c s' =>
      if Ascii.eqb c "+" then (1, s')
      else if Ascii.eqb c "-" then (-1, s')
      else (1, s)
  | EmptyString => (1, s)
  end.

(** The prefix [0x] or [0X], and one underscore after it. *)
Definition strip_0x (s : string) : string :=
  match s with
  | String a (String b s') =>
      if Ascii.eqb a "0" && (Ascii.eqb b "x" || Ascii.eqb b "X") then
        match s' with
        | String c s'' => if Ascii.eqb c "_" then s'' else s'
        | EmptyString => s'
        end
      else s
  | _ => s
  end.

(** [int(s, 16)]: [inl ValueError] where Python raises. *)
Definition int16 (s : string) : exn + Z :=
  let s1 := lstrip_chars int_space s in
  let '(sign, s2) := strip_sign s1 in
  let s3 := strip_0x s2 in
  if startswith s3 "_" then inl ValueError
  else
    match scan_digits 0 0 false s3 with
    | Some (v, n, rest) =>
        match n, lstrip_chars int_space rest with
        | S _, EmptyString => inr (sign * v)
        | _, _ => inl ValueError
        end
    | None => inl ValueError
    end.

End Py.

(* ===================================================================== *)
(** * The regular expressions of token_data_fetcher.py                   *)
(* ===================================================================== *)

Module Re.
Import Py.

(** [span p s]: the longest prefix of [s] whose characters satisfy [p], and
    what follows it.  It is what a greedy [[^c]*] or [[^c]+] consumes when
    the pattern goes on with the character [c]. *)
Fixpoint span (p : ascii → bool) (s : string) : string * string :=
  match s with
  | String c s' =>
      if p c then let '(x, r) := span p s' in (String c x, r)
      else (EmptyString, s)
  | EmptyString => (EmptyString, EmptyString)
  end.

Definition not_char (c : ascii) : ascii → bool := fun x => negb (Ascii.eqb x c).

(** A literal character of a pattern against a character of the text, with
    and without [re.IGNORECASE]. *)
Definition char_matches (ignorecase : bool) (p t : ascii) : bool :=
  if ignorecase then Ascii.eqb (lower_char p) (lower_char t) else Ascii.eqb p t.

(** A literal [p] at the start of [s]: the text after it. *)
Fixpoint literal (ignorecase : bool) (p s : string) : option string :=
  match p, s with
  | EmptyString, _ => Some s
  | String a p', String b s' =>
      if char_matches ignorecase a b then literal ignorecase p' s' else None
  | String _ _, EmptyString => None
  end.

(** [re.search]: the first position, from the left, where [m] matches. *)
Fixpoint search {A} (m : string → option A) (s : string) : option A :=
  match m s with
  | Some v => Some v
  | None =>
      match s with
      | String _ s' => search m s'
      | EmptyString => None
      end
  end.

(** The pattern of [extract_all_values_by_pattern] and
    [extract_value_by_pattern]:
    [</svg></span></div><dd class="static-box-value"><span
     class="sc-65e7f566-0 bxaIIt base-text"><span>([^<]+)</span></span>] *)
Definition marker_head : string :=
  "</svg></span></div><dd class=" +:+ dq +:+ "static-box-value" +:+ dq +:+
  "><span class=" +:+ dq +:+ "sc-65e7f566-0 bxaIIt base-text" +:+ dq +:+ "><span>".

Definition marker_tail : string := "</span></span>".

(** The pattern at the start of [s]: group 1 and the text after the match. *)
Definition match_marker (ignorecase : bool) (s : string) : option (string * string) :=
  match literal ignorecase marker_head s with
  | Some r1 =>
      let '(x, r2) := span (not_char "<") r1 in
      match x with
      | EmptyString => None
      | _ =>
          match literal ignorecase marker_tail r2 with
          | Some r3 => Some (x, r3)
          | None => None
          end
      end
  | None => None
  end.

(** [re.findall(pattern, s)] for the pattern above: matches are taken from
    the left and the scan resumes where a match ended.  [skip] counts the
    characters of the last match that are still to be passed over. *)
Fixpoint findall_from (skip : nat) (s : string) : list string :=
  match s with
  | EmptyString => []
  | String _ s' =>
      match skip with
      | S k => findall_from k s'
      | O =>
          match match_marker false s with
          | Some (x, rest) =>
              x :: findall_from (String.length s - String.length rest - 1) s'
          | None => findall_from 0 s'
          end
      end
  end.

Definition findall_marker (s : string) : list string := findall_from 0 s.

(** Every position of [s] at which the pattern matches, from the left, with
    the text captured there: the occurrences of the marker in the document. *)
Fixpoint marker_occurrences (s : string) : list string :=
  match s with
  | EmptyString => []
  | String _ s' =>
      match match_marker false s with
      | Some (x, _) => x :: marker_occurrences s'
      | None => marker_occurrences s'
      end
  end.

End Re.

(* ===================================================================== *)
(** * Effects: what a call sends or invokes, next to what it returns     *)
(* ===================================================================== *)

Module Trace.

Definition Traced (E A : Type) : Type := A * list E.

Definition ret {E A} (a : A) : Traced E A := (a, []).

Definition bind {E A B} (m : Traced E A) (k : A → Traced E B) : Traced E B :=
  let '(a, t) := m in
  let '(b, t') := k a in
  (b, t ++ t').

(** The call [e] happens and yields [a]. *)
Definition emit {E A} (e : E) (a : A) : Traced E A := (a, [e]).

Definition value {E A} (m : Traced E A) : A := fst m.
Definition events {E A} (m : Traced E A) : list E := snd m.

End Trace.

Notation "x <~ m ; k" := (Trace.bind m (fun x => k))
  (at level 20, m at level 100, k at level 200, only parsing).
Notation "' x <~ m ; k" := (Trace.bind m (fun x => k))
  (at level 20, x pattern, m at level 100, k at level 200, only parsing).

(* ===================================================================== *)
(** * The spreadsheet as pandas presents it                              *)
(* ===================================================================== *)

Module Pandas.
Import Py.

(** A cell: a missing value (an empty spreadsheet cell is read as NaN; a
    column created with [df[name] = None] holds None), an integer, or any
    other object, given by its [str()]. *)
Inductive cell :=
| NaN
| PyNone
| Num (z : Z)
| Val (s : string).

Definition repr_int (z : Z) : string :=
  DecimalString.NilZero.string_of_int (Z.to_int z).

(** [str(c)] *)
Definition str (c : cell) : string :=
  match c with
  | NaN => "nan"
  | PyNone => "None"
  | Num z => repr_int z
  | Val s => s
  end.

(** [pd.isna(c)] *)
Definition isna (c : cell) : bool :=
  match c with
  | NaN | PyNone => true
  | Num _ | Val _ => false
  end.

(** What [pd.read_excel] finds in a file: the column names and the rows. *)
Record sheet := { header : list string; body : list (list cell) }.

(** A DataFrame: column labels, and the rows in order, each under its index
    label. *)
Record DataFrame := { columns : list string; rows : list (nat * list cell) }.

(** [pd.read_excel]: rows get the labels 0, 1, 2, ... and the width of the
    header, short rows filled up with NaN. *)
Definition of_sheet (sh : sheet) : DataFrame :=
  let w := length (header sh) in
  {| columns := header sh;
     rows := imap (fun i r => (i, take w (r ++ replicate w NaN))) (body sh) |}.

(** [df.iterrows()] *)
Definition iterrows (df : DataFrame) : list (nat * list cell) := rows df.

(** [row.iloc[k]] *)
Definition iloc (row : list cell) (k : nat) : exn + cell :=
  match row !! k with
  | Some c => inr c
  | None => inl IndexError
  end.

(** [df[name] = None]: a column of that name is overwritten, otherwise a
    new last column is added. *)
Definition set_cells (cols : list string) (col : string) (v : cell) (r : list cell)
  : list cell :=
  imap (fun j x => if bool_decide (cols !! j = Some col) then v else x) r.

Definition setitem_none (df : DataFrame) (name : string) : DataFrame :=
  if bool_decide (name ∈ columns df)
  then {| columns := columns df;
          rows := map (fun r => (r.1, set_cells (columns df) name PyNone r.2)) (rows df) |}
  else {| columns := columns df ++ [name];
          rows := map (fun r => (r.1, r.2 ++ [PyNone])) (rows df) |}.

(** [df.loc[label, col] = v] and [df.at[label, col] = v] for a column that
    exists: every row under that label gets [v] in every column named
    [col]; a label that is not in the index adds a row at the end. *)
Definition has_label (df : DataFrame) (label : nat) : bool :=
  existsb (fun r => Nat.eqb r.1 label) (rows df).

Definition loc_set (df : DataFrame) (label : nat) (col : string) (v : cell)
  : DataFrame :=
  if has_label df label
  then {| columns := columns df;
          rows := map (fun r => if Nat.eqb r.1 label
                                then (r.1, set_cells (columns df) col v r.2)
                                else r) (rows df) |}
  else {| columns := columns df;
          rows := rows df ++
                  [(label, set_cells (columns df) col v
                             (replicate (length (columns df)) NaN))] |}.

End Pandas.

(* ===================================================================== *)
(** * GET_DECIMALS/get_decimals.py                                       *)
(* ===================================================================== *)

Module DecimalsFetcher.
Import Py Trace Pandas.

(** ** The JSON-RPC endpoint *)

(** A decoded JSON document.  Of a number with a fraction or an exponent
    only its being zero is kept; a dict lists its members in document order. *)
#[warnings="-register-all"]
Inductive json :=
| JNull
| JBool (b : bool)
| JInt (n : Z)
| JReal (is_zero : bool)
| JStr (s : string)
| JList (l : list json)
| JDict (d : list (string * json)).

(** [d[k]] on the dict that [json.loads] builds: the last member named [k]. *)
Fixpoint dict_get (k : string) (d : list (string * json)) : option json :=
  match d with
  | [] => None
  | (k', v) :: d' =>
      match dict_get k d' with
      | Some w => Some w
      | None => if String.eqb k k' then Some v else None
      end
  end.

(** [bool(v)] *)
Definition json_truthy (v : json) : bool :=
  match v with
  | JNull => false
  | JBool b => b
  | JInt n => negb (n =? 0)
  | JReal z => negb z
  | JStr s => truthy s
  | JList l => match l with [] => false | _ => true end
  | JDict d => match d with [] => false | _ => true end
  end.

(** [sub in s] for strings *)
Fixpoint contains (s sub : string) : bool :=
  startswith s sub ||
  match s with
  | String _ s' => contains s' sub
  | EmptyString => false
  end.

(** ['result' in v] *)
Definition contains_result (v : json) : exn + bool :=
  match v with
  | JDict d => inr (bool_decide (is_Some (dict_get "result" d)))
  | JList l => inr (existsb (fun x => match x with
                                      | JStr s => String.eqb s "result"
                                      | _ => false
                                      end) l)
  | JStr s => inr (contains s "result")
  | JNull | JBool _ | JInt _ | JReal _ => inl TypeError
  end.

(** [v['result']], asked only after ['result' in v] *)
Definition getitem_result (v : json) : exn + json :=
  match v with
  | JDict d => match dict_get "result" d with
               | Some w => inr w
               | None => inl TypeError
               end
  | _ => inl TypeError
  end.

(** The [eth_call] request that is posted: the endpoint, and [to] and [data]
    of its parameters. *)
Record rpc_request := { url : string; to : string; data : string }.

(** What comes back: the status code and what [response.json()] gives. *)
Record rpc_response := { status_code : Z; json_body : exn + json }.

(** [requests.post]: it raises or it returns a response. *)
Definition Rpc : Type := rpc_request → exn + rpc_response.

(** ** The class *)

Definition rpc_endpoints : gmap string string :=
  list_to_map
    [ ("ethereum", "https://eth.llamarpc.com");
      ("bsc", "https://bsc-dataseed.binance.org");
      ("polygon", "https://polygon-rpc.com");
      ("arbitrum", "https://arb1.arbitrum.io/rpc");
      ("avalanche", "https://api.avax.network/ext/bc/C/rpc");
      ("fantom", "https://rpc.ftm.tools");
      ("optimism", "https://mainnet.optimism.io");
      ("base", "https://mainnet.base.org") ].

Definition decimals_signature : string := "0x313ce567".

Definition get_rpc_endpoint (network : string) : option string :=
  let network_lower := lower network in
  rpc_endpoints !! network_lower.

(** The body of the [try] of [call_contract_method], after the response has
    arrived. *)
Definition read_result (resp : rpc_response) : exn + option json :=
  if status_code resp =? 200 then
    match json_body resp with
    | inl e => inl e
    | inr result =>
        match contains_result result with
        | inl e => inl e
        | inr false => inr None
        | inr true =>
            match getitem_result result with
            | inl e => inl e
            | inr r => if json_truthy r then inr (Some r) else inr None
            end
        end
    end
  else inr None.

Definition call_contract_method (rpc : Rpc)
    (rpc_url contract_address method_signature : string)
  : Traced rpc_request (option json) :=
  let payload := {| url := rpc_url; to := contract_address; data := method_signature |} in
  response <~ emit payload (rpc payload);
  ret (match response with
       | inl _ => None
       | inr resp =>
           match read_result resp with
           | inl _ => None
           | inr r => r
           end
       end).

(** The body of the [try] of [hex_to_decimal].  A value that is not a
    string has no [startswith]. *)
Definition hex_to_decimal_try (hex_result : json) : exn + Z :=
  match hex_result with
  | JStr hex_result =>
      let hex_result := if startswith hex_result "0x" then drop 2 hex_result
                        else hex_result in
      let hex_result := lstrip_zeros hex_result in
      let hex_result := if negb (truthy hex_result) then "0" else hex_result in
      int16 hex_result
  | _ => inl AttributeError
  end.

Definition hex_to_decimal (hex_result : json) : Z :=
  match hex_to_decimal_try hex_result with
  | inr n => n
  | inl _ => 18
  end.

Definition get_token_decimals (rpc : Rpc) (network contract_address : string)
  : Traced rpc_request Z :=
  match get_rpc_endpoint network with
  | Some rpc_url =>
      if negb (truthy rpc_url) then ret 18 else
      let contract_address :=
        if negb (startswith contract_address "0x") then "0x" +:+ contract_address
        else contract_address in
      result <~ call_contract_method rpc rpc_url contract_address decimals_signature;
      match result with
      | Some r => if json_truthy r then ret (hex_to_decimal r) else ret 18
      | None => ret 18
      end
  | None => ret 18
  end.

(** One turn of the loop of [process_excel] on the row [row]: the value
    stored in the column [decimals], and the requests sent. *)
Definition process_row (rpc : Rpc) (row : list cell) : Traced rpc_request Z :=
  match iloc row 0, iloc row 1 with
  | inr c0, inr c1 =>
      let network := strip (str c0) in
      let contract_address := strip (str c1) in
      if isna (Val network) || isna (Val contract_address)
         || String.eqb network "nan" || String.eqb contract_address "nan"
      then ret 18
      else get_token_decimals rpc network contract_address
  | _, _ => ret 18
  end.

(** The loop of [process_excel]: the column [decimals] is added when it is
    missing, then every row is processed in order and its result stored. *)
Definition add_decimals_column (df : DataFrame) : DataFrame :=
  if bool_decide ("decimals" ∈ columns df) then df else setitem_none df "decimals".

Definition process_rows (rpc : Rpc) (df : DataFrame) : Traced rpc_request DataFrame :=
  fold_left
    (fun acc r =>
       df' <~ acc;
       decimals <~ process_row rpc r.2;
       ret (loc_set df' r.1 "decimals" (Num decimals)))
    (iterrows df) (ret df).

Definition process_excel_loop (rpc : Rpc) (sh : sheet) : Traced rpc_request DataFrame :=
  process_rows rpc (add_decimals_column (of_sheet sh)).

(** ** The whole of [process_excel] *)

(** What a run does to the outside: the requests it posts and the files it
    writes. *)
Inductive io :=
| Posted (request : rpc_request)
| Written (path : string) (df : DataFrame).

(** [df.sort_index()]: the rows in ascending order of their labels.  The
    labels of the table that [process_excel] sorts are distinct, so the
    order among rows of one label, which this definition keeps, never comes
    into play. *)
Fixpoint insert_row (r : nat * list cell) (rs : list (nat * list cell))
  : list (nat * list cell) :=
  match rs with
  | [] => [r]
  | r' :: rs' => if Nat.leb r.1 r'.1 then r :: rs else r' :: insert_row r rs'
  end.

Definition sort_index (df : DataFrame) : DataFrame :=
  {| columns := columns df; rows := foldr insert_row [] (rows df) |}.

(** [read_excel] is what [pd.read_excel] finds under a path (or the exception
    it raises), [to_excel] whether [df.to_excel] to a path raises.  The rows
    that [pd.read_excel] gives are labelled 0, 1, 2, ... already, so
    [reset_index(drop=True)] changes nothing.  The result is [None] where
    the outer [except] is reached. *)
Definition process_excel (read_excel : string → exn + sheet)
    (to_excel : string → DataFrame → option exn) (rpc : Rpc) (excel_file : string)
  : Traced io (option DataFrame) :=
  match read_excel excel_file with
  | inl _ => ret None
  | inr sh =>
      df <~ (let '(df, requests) := process_excel_loop rpc sh in
             (df, map Posted requests));
      let backup_file := replace excel_file ".xlsx" "_backup.xlsx" in
      match read_excel excel_file with
      | inl _ => ret None
      | inr original =>
          let df_original := of_sheet original in
          match to_excel backup_file df_original with
          | Some _ => ret None
          | None =>
              _ <~ emit (Written backup_file df_original) tt;
              let output_file := replace excel_file ".xlsx" "_with_decimals.xlsx" in
              let df_sorted := sort_index df in
              match to_excel output_file df_sorted with
              | Some _ => ret None
              | None =>
                  _ <~ emit (Written output_file df_sorted) tt;
                  ret (Some df_sorted)
              end
          end
      end
  end.

End DecimalsFetcher.

(* ===================================================================== *)
(** * GET_POOL/token_data_fetcher.py                                     *)
(* ===================================================================== *)

(** The part of BeautifulSoup that the class uses.  [BeautifulSoup] is
    [BeautifulSoup(html, 'html.parser')], [None] where the parser rejects the
    markup; [find_all_class soup k] is
    [soup.find_all(class_=re.compile(k, re.IGNORECASE))], [find_all_data_key]
    the same for the attribute [data-key]; [get_text] is
    [element.get_text(strip=True)]. *)
Class BS4 := {
  soup : Type;
  element : Type;
  BeautifulSoup : string → option soup;
  find_all_class : soup → string → list element;
  find_all_data_key : soup → string → list element;
  get_text : element → string
}.

(** [re.findall(pattern, s, re.IGNORECASE)] for the patterns whose matches
    the class only counts. *)
Class Regex := {
  re_findall : string → string → list string
}.

Module TokenDataFetcher.
Import Py Re Trace Pandas.

Definition metrics : Type := string * string * string.

Definition zeros : metrics := ("0", "0", "0").

(** ** Strategy 1 *)

Definition extract_all_values_by_pattern (html_content : string) : metrics :=
  let matches := findall_marker html_content in
  match matches with
  | [m0; m1; m2] =>
      let fdv := strip m0 in
      let liquidity := strip m1 in
      let volume_24h := strip m2 in
      (fdv, liquidity, volume_24h)
  | _ => zeros
  end.

(** ** Strategy 2 *)

(** [label.*?] followed by the marker pattern, under
    [re.IGNORECASE | re.DOTALL]: after the label the lazy [.*?] gives way
    to the first position where the marker matches. *)
Definition label_then_marker (label s : string) : option string :=
  match literal true label s with
  | Some r => search (fun t => fst <$> match_marker true t) r
  | None => None
  end.

(** [[^>]*>([^<]+)<] at the start of [s]: group 1. *)
Definition value_after_gt (s : string) : option string :=
  let '(_, r) := span (not_char ">") s in
  match r with
  | String ">" r1 =>
      let '(x, r2) := span (not_char "<") r1 in
      match x, r2 with
      | String _ _, String "<" _ => Some x
      | _, _ => None
      end
  | _ => None
  end.

(** The text [sub] somewhere in [s], case ignored. *)
Fixpoint contains_ci (s sub : string) : bool :=
  match literal true sub s with
  | Some _ => true
  | None =>
      match s with
      | String _ s' => contains_ci s' sub
      | EmptyString => false
      end
  end.

(** The three backup patterns, under [re.IGNORECASE]:
    [label[^>]*>([^<]+)<], the same with the label in double quotes, and
    [class="[^"]*label[^"]*"[^>]*>([^<]+)<] with the label in lower case. *)
Definition backup_1 (label s : string) : option string :=
  match literal true label s with
  | Some r => value_after_gt r
  | None => None
  end.

Definition backup_2 (label s : string) : option string :=
  match literal true (dq +:+ label +:+ dq) s with
  | Some r => value_after_gt r
  | None => None
  end.

Definition backup_3 (label s : string) : option string :=
  match literal true ("class=" +:+ dq) s with
  | Some r =>
      let '(q, r1) := span (not_char (ascii_of_nat 34)) r in
      if contains_ci q (lower label) then
        match r1 with
        | String _ r2 => value_after_gt r2
        | EmptyString => None
        end
      else None
  | None => None
  end.

Definition backup_patterns : list (string → string → option string) :=
  [backup_1; backup_2; backup_3].

(** The loop over the backup patterns: the first one that matches wins. *)
Fixpoint first_backup (ps : list (string → string → option string))
    (html_content label : string) : option string :=
  match ps with
  | [] => None
  | p :: ps' =>
      match search (p label) html_content with
      | Some g => Some (strip g)
      | None => first_backup ps' html_content label
      end
  end.

(** [label] is one of the three texts the class passes; none of them has a
    character that is special in a pattern. *)
Definition extract_value_by_pattern (html_content label : string) : option string :=
  match search (label_then_marker label) html_content with
  | Some g => Some (strip g)
  | None => first_backup backup_patterns html_content label
  end.

(** ** Strategy 3 *)

Definition is_digit (c : ascii) : bool :=
  let n := N_of_ascii c in ((48 <=? n) && (n <=? 57))%N.

(** [\d+\.?\d*] at the start of [s]: the text after it. *)
Definition number_prefix (s : string) : option string :=
  let '(d, r) := span is_digit s in
  match d with
  | EmptyString => None
  | _ =>
      let r1 := match r with String "." r' => r' | _ => r end in
      Some (snd (span is_digit r1))
  end.

(** [[+-]?\d+$] *)
Definition exponent (s : string) : bool :=
  let s1 := match s with String "+" s' | String "-" s' => s' | _ => s end in
  let '(d, r) := span is_digit s1 in
  truthy d && negb (truthy r).

(** [re.sub(r'[$,\s%]', '', text)] *)
Fixpoint clean (text : string) : string :=
  match text with
  | String c s' =>
      if Ascii.eqb c "$" || Ascii.eqb c "," || isspace c || Ascii.eqb c "%"
      then clean s' else String c (clean s')
  | EmptyString => EmptyString
  end.

(** The three shapes, under [re.IGNORECASE]: [^\d+\.?\d*$],
    [^\d+\.?\d*[KMB]$] and [^\d+\.?\d*e[+-]?\d+$]. *)
Definition is_numeric_value (text : string) : bool :=
  let cleaned := clean text in
  match number_prefix cleaned with
  | None => false
  | Some rest =>
      match rest with
      | EmptyString => true
      | String c EmptyString =>
          existsb (fun k => char_matches true k c) ["K"; "M"; "B"]%char
      | String c rest' => char_matches true "e" c && exponent rest'
      end
  end.

Section Strategies.
Context `{BS4} `{Regex}.

Definition first_numeric (elements : list element) : option string :=
  head (filter (fun text => truthy text && is_numeric_value text = true)
               (map get_text elements)).

Fixpoint extract_value_by_class (sp : soup) (class_keywords : list string)
  : option string :=
  match class_keywords with
  | [] => None
  | keyword :: rest =>
      match first_numeric (find_all_class sp keyword) with
      | Some text => Some text
      | None =>
          match first_numeric (find_all_data_key sp keyword) with
          | Some text => Some text
          | None => extract_value_by_class sp rest
          end
      end
  end.

(** ** Strategy 4 *)

Definition script_patterns : list string :=
  [ "window\.__NEXT_DATA__\s*=\s*({.+?});";
    "window\.__INITIAL_STATE__\s*=\s*({.+?});";
    dq +:+ "price" +:+ dq +:+ ":\s*" +:+ dq +:+ "([^" +:+ dq +:+ "]+)" +:+ dq;
    dq +:+ "fdv" +:+ dq +:+ ":\s*" +:+ dq +:+ "([^" +:+ dq +:+ "]+)" +:+ dq;
    dq +:+ "liquidity" +:+ dq +:+ ":\s*" +:+ dq +:+ "([^" +:+ dq +:+ "]+)" +:+ dq;
    dq +:+ "volume24h" +:+ dq +:+ ":\s*" +:+ dq +:+ "([^" +:+ dq +:+ "]+)" +:+ dq ].

(** The loop over [script_patterns]: it stops at the first pattern with a
    match, whose matches are counted for the log. *)
Fixpoint first_script_match (ps : list string) (html_content : string)
  : option nat :=
  match ps with
  | [] => None
  | pattern :: ps' =>
      match re_findall pattern html_content with
      | [] => first_script_match ps' html_content
      | matches => Some (length matches)
      end
  end.

Definition extract_from_script_data (html_content : string) : metrics :=
  let fdv : option string := None in
  let liquidity : option string := None in
  let volume_24h : option string := None in
  let logged := first_script_match script_patterns html_content in
  (or_else fdv "0", or_else liquidity "0", or_else volume_24h "0").

(** ** The pipeline *)

Inductive strategy :=
| PatternTriple
| LabeledPattern (label : string)
| ClassSearch (class_keywords : list string)
| ScriptData.

Definition parse_html_data (html_content : string) : Traced strategy metrics :=
  match BeautifulSoup html_content with
  | None => ret zeros
  | Some sp =>
      '(fdv, liquidity, volume_24h) <~
        emit PatternTriple (extract_all_values_by_pattern html_content);
      if String.eqb fdv "0" && String.eqb liquidity "0" && String.eqb volume_24h "0"
      then
        fdv <~ emit (LabeledPattern "FDV")
                    (extract_value_by_pattern html_content "FDV");
        liquidity <~ emit (LabeledPattern "liq")
                          (extract_value_by_pattern html_content "liq");
        volume_24h <~ emit (LabeledPattern "24h VOL")
                           (extract_value_by_pattern html_content "24h VOL");
        fdv <~ (if negb (truthy_opt fdv)
                then emit (ClassSearch ["fdv"; "market-cap"; "fully-diluted"])
                          (extract_value_by_class sp ["fdv"; "market-cap"; "fully-diluted"])
                else ret fdv);
        liquidity <~ (if negb (truthy_opt liquidity)
                      then emit (ClassSearch ["liquidity"; "liq"])
                                (extract_value_by_class sp ["liquidity"; "liq"])
                      else ret liquidity);
        volume_24h <~ (if negb (truthy_opt volume_24h)
                       then emit (ClassSearch ["volume"; "24h-volume"; "vol"])
                                 (extract_value_by_class sp ["volume"; "24h-volume"; "vol"])
                       else ret volume_24h);
        '(fdv, liquidity, volume_24h) <~
          (if negb (truthy_opt fdv || truthy_opt liquidity || truthy_opt volume_24h)
           then
             '(a, b, c) <~ emit ScriptData (extract_from_script_data html_content);
             ret (Some a, Some b, Some c)
           else ret (fdv, liquidity, volume_24h));
        ret (or_else fdv "0", or_else liquidity "0", or_else volume_24h "0")
      else
        ret (or_else (Some fdv) "0", or_else (Some liquidity) "0",
             or_else (Some volume_24h) "0")
  end.

(** ** Fetching *)

Definition base_url : string := "https://dex.coinmarketcap.com/token".

(** A response of [session.get]: the status code and the body text. *)
Record http_response := { status : Z; text : string }.

(** [session.get(url, timeout=30)]: it raises or it returns a response. *)
Definition Http : Type := string → exn + http_response.

Definition is_request_exception (e : exn) : bool :=
  match e with RequestException _ => true | _ => false end.

(** [inl e] where the exception [e] leaves [fetch_token_data]. *)
Definition fetch_token_data (http : Http) (network contract_address : string)
  : exn + metrics :=
  let url := base_url +:+ "/" +:+ network +:+ "/" +:+ contract_address +:+ "/" in
  match http url with
  | inr response =>
      if status response =? 200 then inr (value (parse_html_data (text response)))
      else if status response =? 404 then inr zeros
      else inr zeros
  | inl e => if is_request_exception e then inr zeros else inl e
  end.

(** ** The worker *)

Definition task : Type := nat * cell * cell.

Definition process_single_row (http : Http) (args : task) : nat * metrics :=
  let '(index, network, contract_address) := args in
  if isna network || isna contract_address
     || negb (truthy (strip (str network)))
     || negb (truthy (strip (str contract_address)))
  then (index, zeros)
  else
    let network := strip (str network) in
    let contract_address := strip (str contract_address) in
    match fetch_token_data http network contract_address with
    | inr m => (index, m)
    | inl _ => (index, zeros)
    end.

(** ** The run over the spreadsheet *)

(** The files: what [pd.read_excel] finds under a path (or the exception it
    raises), and whether [df.to_excel] to a path raises. *)
Record Disk := {
  read_excel : string → exn + sheet;
  to_excel : string → DataFrame → option exn
}.

Definition load_excel_data (disk : Disk) (excel_file : string) : outcome DataFrame :=
  match read_excel disk excel_file with
  | inr sh => Returns (of_sheet sh)
  | inl e => Raises e
  end.

(** [while len(df.columns) < 5: df[f'Column_{len(df.columns)}'] = None],
    with [n] the number of columns still missing.  Where a column of the
    new name exists already the assignment overwrites it, the table does
    not grow and the loop goes on for ever. *)
Fixpoint pad_columns (n : nat) (df : DataFrame) : outcome DataFrame :=
  match n with
  | O => Returns df
  | S n' =>
      let name := "Column_" +:+ repr_int (Z.of_nat (length (columns df))) in
      if bool_decide (name ∈ columns df) then Diverges
      else pad_columns n' (setitem_none df name)
  end.

Definition ensure_columns (df : DataFrame) : outcome DataFrame :=
  pad_columns (5 - length (columns df)) df.

(** [df.columns = names]: the number of names must be the number of
    columns. *)
Definition set_columns (df : DataFrame) (names : list string) : outcome DataFrame :=
  if Nat.eqb (length names) (length (columns df))
  then Returns {| columns := names; rows := rows df |}
  else Raises ValueError.

Fixpoint make_tasks (rs : list (nat * list cell)) : outcome (list task) :=
  match rs with
  | [] => Returns []
  | (index, row) :: rs' =>
      match iloc row 0, iloc row 1 with
      | inr network, inr contract_address =>
          obind (make_tasks rs') (fun ts =>
          Returns ((index, network, contract_address) :: ts))
      | inl e, _ | _, inl e => Raises e
      end
  end.

(** A future: the index it was submitted under ([future_to_index]) and what
    [future.result()] gives. *)
Definition future : Type := nat * (exn + nat * metrics).

Definition submit (http : Http) (t : task) : future :=
  (t.1.1, inr (process_single_row http t)).

(** The three assignments made under [with self.lock] for a future. *)
Definition writes_of (f : future) : nat * list (string * cell) :=
  match f with
  | (_, inr (result_index, (fdv, liquidity, volume_24h))) =>
      (result_index,
       [("FDV", Val fdv); ("Liquidity", Val liquidity); ("24h Volume", Val volume_24h)])
  | (index, inl _) =>
      (index, [("FDV", Val "0"); ("Liquidity", Val "0"); ("24h Volume", Val "0")])
  end.

Definition apply_writes (df : DataFrame) (label : nat) (ws : list (string * cell))
  : DataFrame :=
  fold_left (fun d w => loc_set d label w.1 w.2) ws df.

(** One turn of the loop over [as_completed]. *)
Definition record_result (df : DataFrame) (f : future) : DataFrame :=
  let '(label, ws) := writes_of f in apply_writes df label ws.

Definition aggregate (df : DataFrame) (completed : list future) : DataFrame :=
  fold_left record_result completed df.

Definition save (disk : Disk) (excel_file : string) (df : DataFrame) : outcome DataFrame :=
  let output_file := replace excel_file ".xlsx" "_result.xlsx" in
  match to_excel disk output_file df with
  | Some e => Raises e
  | None =>
      match to_excel disk excel_file df with
      | Some e => Raises e
      | None => Returns df
      end
  end.

(** [as_completed] hands out the futures in the order in which the workers
    finish; that order is the argument [as_completed].  The result is the
    table written to both files. *)
Definition process_excel_file (disk : Disk) (http : Http)
    (as_completed : list future → list future) (excel_file : string)
  : outcome DataFrame :=
  obind (load_excel_data disk excel_file) (fun df =>
  obind (ensure_columns df) (fun df =>
  obind (set_columns df (take 2 (columns df) ++ ["FDV"; "Liquidity"; "24h Volume"]))
    (fun df =>
  obind (make_tasks (iterrows df)) (fun tasks =>
  let future_to_index := map (submit http) tasks in
  let df := aggregate df (as_completed future_to_index) in
  save disk excel_file df)))).

(** ** The loop over [as_completed], statement by statement *)

(** Where the main thread stands: before a turn of the loop with the lock
    free, or under [with self.lock] with the assignments still to make. *)
Inductive position :=
| AtLoopHead
| Locked (label : nat) (pending : list (string * cell)).

Record aggregator := {
  table : DataFrame;
  lock_held : bool;
  at_position : position;
  remaining : list future
}.

Inductive step : aggregator → aggregator → Prop :=
| step_acquire df f fs :
    step {| table := df; lock_held := false; at_position := AtLoopHead;
            remaining := f :: fs |}
         {| table := df; lock_held := true;
            at_position := Locked (writes_of f).1 (writes_of f).2;
            remaining := fs |}
| step_assign df label col v ws fs :
    step {| table := df; lock_held := true;
            at_position := Locked label ((col, v) :: ws); remaining := fs |}
         {| table := loc_set df label col v; lock_held := true;
            at_position := Locked label ws; remaining := fs |}
| step_release df label fs :
    step {| table := df; lock_held := true; at_position := Locked label [];
            remaining := fs |}
         {| table := df; lock_held := false; at_position := AtLoopHead;
            remaining := fs |}.

Definition start (df : DataFrame) (completed : list future) : aggregator :=
  {| table := df; lock_held := false; at_position := AtLoopHead;
     remaining := completed |}.

Definition reachable (df : DataFrame) (completed : list future) (s : aggregator) : Prop :=
  rtc step (start df completed) s.

(** ** The single-threaded run *)

(** One turn of the loop of [process_excel_file_single_thread]: the three
    values stored for the row.  The two cells are turned into text before
    the test for a missing value; an exception raised in the turn is caught
    and gives the default. *)
Definition single_thread_row (http : Http) (row : list cell) : metrics :=
  match iloc row 0, iloc row 1 with
  | inr c0, inr c1 =>
      let network := strip (str c0) in
      let contract_address := strip (str c1) in
      if isna (Val network) || isna (Val contract_address)
         || negb (truthy network) || negb (truthy contract_address)
      then zeros
      else
        match fetch_token_data http network contract_address with
        | inr m => m
        | inl _ => zeros
        end
  | _, _ => zeros
  end.

Definition single_thread_loop (http : Http) (df : DataFrame) : DataFrame :=
  fold_left
    (fun d r =>
       let '(fdv, liquidity, volume_24h) := single_thread_row http r.2 in
       let d := loc_set d r.1 "FDV" (Val fdv) in
       let d := loc_set d r.1 "Liquidity" (Val liquidity) in
       loc_set d r.1 "24h Volume" (Val volume_24h))
    (iterrows df) df.

Definition process_excel_file_single_thread (disk : Disk) (http : Http)
    (excel_file : string) : outcome DataFrame :=
  obind (load_excel_data disk excel_file) (fun df =>
  obind (ensure_columns df) (fun df =>
  obind (set_columns df (take 2 (columns df) ++ ["FDV"; "Liquidity"; "24h Volume"]))
    (fun df =>
  let df := single_thread_loop http df in
  save disk excel_file df))).

End Strategies.

End TokenDataFetcher.

(* ===================================================================== *)
(** * The vocabulary of the statements                                   *)
(* ===================================================================== *)

Import Py Re Trace Pandas DecimalsFetcher TokenDataFetcher.

(** ** Strings *)

(** Every character of a string satisfies [p]. *)
Fixpoint all_chars (p : ascii → bool) (s : string) : bool :=
  match s with
  | String c s' => p c && all_chars p s'
  | EmptyString => true
  end.

(** ** The marker in a document *)

(** The pattern can only match where the text goes on with [</sv]. *)
Definition marker_start : string := "</sv".

(** [a] and [p] differ at a position that both have. *)
Fixpoint disagree (a p : string) : bool :=
  match a, p with
  | String x a', String y p' => negb (Ascii.eqb x y) || disagree a' p'
  | _, _ => false
  end.

(** No match of the pattern can begin inside [a], whatever follows [a]. *)
Fixpoint inert (a : string) : bool :=
  match a with
  | String _ a' => disagree a marker_start && inert a'
  | EmptyString => true
  end.

(** A match, split into its first character and the rest of the match. *)
Definition marker_head_rest : string := Py.drop 1 marker_head.

Definition match_rest (x : string) : string :=
  marker_head_rest +:+ x +:+ marker_tail.

(** A page fragment with the marker around [x]. *)
Definition marked (x : string) : string := marker_head +:+ x +:+ marker_tail.

Definition three_metrics_page : string :=
  "<dl>" +:+ marked "$1.2M" +:+ "<dt>" +:+ marked " $500K" +:+ marked "$45.3K " +:+ "</dl>".

Definition two_metrics_page : string :=
  "<dl>" +:+ marked "$1.2M" +:+ "<dt>" +:+ marked "$500K" +:+ "</dl>".

(** ** The pipeline and the fetch *)

(** [s or "0"] for a string [s]. *)
Definition or_zero (s : string) : string := or_else (Some s) "0".

(** A server that answers 404, one that times out, and one that serves
    [three_metrics_page]. *)
Definition not_found : Http := fun _ => inr {| status := 404; text := "" |}.
Definition timing_out : Http := fun _ => inl (RequestException Timeout).
Definition serving : Http := fun _ => inr {| status := 200; text := three_metrics_page |}.

(** A parser that accepts every body and finds no element, and a regular
    expression engine that finds nothing. *)
Definition empty_soup : BS4 :=
  {| soup := unit; element := string;
     BeautifulSoup := fun _ => Some tt;
     find_all_class := fun _ _ => [];
     find_all_data_key := fun _ _ => [];
     get_text := fun e => e |}.

Definition no_script_matches : Regex := {| re_findall := fun _ _ => [] |}.

(** Three occurrences that all read "0", followed by a labelled value. *)
Definition three_zeros_page : string :=
  marked "0" +:+ marked "0" +:+ marked "0" +:+ "<i id=FDV>5</i>".

(** Three occurrences, the first of them blank. *)
Definition blank_capture_page : string :=
  marked " " +:+ marked "1" +:+ marked "2".

(** ** Hexadecimal texts *)

(** A text of hexadecimal digits and the integer it denotes, most
    significant digit first. *)
Definition is_hex_digits (d : string) : bool :=
  all_chars (fun c => bool_decide (is_Some (hex_digit c))) d.

Definition digit_value (c : ascii) : Z :=
  match hex_digit c with Some v => v | None => 0 end.

Fixpoint big_endian (d : string) : Z :=
  match d with
  | String c d' => digit_value c * 16 ^ Z.of_nat (String.length d') + big_endian d'
  | EmptyString => 0
  end.


(** [hex_to_decimal] on a string, after the test for the prefix. *)
Definition decode_tail (s : string) : exn + Z :=
  let r := lstrip_zeros s in
  int16 (if negb (truthy r) then "0" else r).

(** ** The decimals call *)

(** The request that [get_token_decimals] posts for an address. *)
Definition decimals_request (endpoint address : string) : rpc_request :=
  {| url := endpoint;
     to := if startswith address "0x" then address else "0x" +:+ address;
     data := decimals_signature |}.

(** An endpoint that answers every call with the JSON object
    [{"result": s}]. *)
Definition answers (s : string) : Rpc :=
  fun _ => inr {| status_code := 200; json_body := inr (JDict [("result", JStr s)]) |}.

Definition usdt_bsc : string := "0x55d398326f99059fF775485246999027B3197955".

(** An endpoint that is down. *)
Definition unreachable : Rpc := fun _ => inl (RequestException ConnectionError).

(** ** Writing into a table *)

(** The row under the label [i] is changed by [g], the others are kept. *)
Definition upd_row (i : nat) (g : list cell → list cell) (r : nat * list cell)
  : nat * list cell :=
  if Nat.eqb r.1 i then (r.1, g r.2) else r.

(** The assignments [ws] made to the cells of one row. *)
Definition write_cells (cols : list string) (ws : list (string * cell))
    (r : list cell) : list cell :=
  fold_left (fun r w => set_cells cols w.1 w.2 r) ws r.

(** What the futures of a list do to the cells of the row under [label]:
    each future of that label makes its three assignments. *)
Definition writes_to (cols : list string) (label : nat) (fs : list future)
    (cells : list cell) : list cell :=
  fold_left
    (fun cells f => if Nat.eqb label (writes_of f).1
                    then write_cells cols (writes_of f).2 cells else cells)
    fs cells.

Definition label_of (f : future) : nat := (writes_of f).1.

(** The task of a row: its label and its first two cells. *)
Definition task_of (r : nat * list cell) : task :=
  (r.1, default PyNone (r.2 !! 0%nat), default PyNone (r.2 !! 1%nat)).

Section RunVocabulary.
Context `{BS4} `{Regex}.

(** The metrics that the worker computes for a row. *)
Definition metrics_of (http : Http) (r : nat * list cell) : metrics :=
  (process_single_row http (task_of r)).2.

Definition metric_cells (m : metrics) : list (string * cell) :=
  [("FDV", Val m.1.1); ("Liquidity", Val m.1.2); ("24h Volume", Val m.2)].

(** The table in which every row holds the metrics of its own task. *)
Definition final_table (http : Http) (df : DataFrame) : DataFrame :=
  {| columns := columns df;
     rows := map (fun r => (r.1, write_cells (columns df)
                                   (metric_cells (metrics_of http r)) r.2))
                 (rows df) |}.

End RunVocabulary.

(** ** The table before the pool starts *)

(** [process_excel_file] up to the renaming of the columns. *)
Definition prepare (disk : Disk) (excel_file : string) : outcome DataFrame :=
  obind (load_excel_data disk excel_file) (fun df =>
  obind (ensure_columns df) (fun df =>
  set_columns df (take 2 (columns df) ++ ["FDV"; "Liquidity"; "24h Volume"]))).

(** The name of the column added when the table has [k] columns. *)
Definition column_name (k : nat) : string := "Column_" +:+ repr_int (Z.of_nat k).

(** A row of a sheet of width [w] as the pool sees it: filled up with NaN to
    the width of the header, then with None to five cells. *)
Definition input_row (w : nat) (raw : list cell) : list cell :=
  take w (raw ++ replicate w NaN) ++ replicate (5 - w) PyNone.

(** ** A run *)

Definition pool_sheet : sheet :=
  {| header := ["network"; "address"];
     body := [ [Val "bsc"; Val "0xaaa"];
               [Val "ethereum"; NaN];
               [Val "base"; Val "0xbbb"] ] |}.

(** Files that can be read and written. *)
Definition pool_disk : Disk :=
  {| read_excel := fun path => if String.eqb path "test.xlsx" then inr pool_sheet
                               else inl FileNotFoundError;
     to_excel := fun _ _ => None |}.


(** A sheet of six columns, and one whose third column has the name that
    the padding would give to a new third column. *)
Definition wide_sheet : sheet :=
  {| header := ["network"; "address"; "c"; "d"; "e"; "f"];
     body := [[Val "bsc"; Val "0xaaa"; NaN; NaN; NaN; NaN]] |}.

Definition clashing_sheet : sheet :=
  {| header := ["network"; "address"; "Column_3"];
     body := [[Val "bsc"; Val "0xaaa"; NaN]] |}.

Definition disk_with (sh : sheet) : Disk :=
  {| read_excel := fun _ => inr sh; to_excel := fun _ _ => None |}.

(** One page is served, every other request times out. *)
Definition pool_http : Http :=
  fun url => if String.eqb url "https://dex.coinmarketcap.com/token/bsc/0xaaa/"
             then inr {| status := 200; text := three_metrics_page |}
             else inl (RequestException Timeout).

(** ** The loop under the lock *)


(** A table of one row and the future of its task. *)
Definition one_turn : list future := [(0%nat, inr (0%nat, ("$1.2M", "$500K", "$45.3K")))].

Definition one_row : DataFrame :=
  {| columns := ["network"; "address"; "FDV"; "Liquidity"; "24h Volume"];
     rows := [(0%nat, [Val "bsc"; Val "0xaaa"; PyNone; PyNone; PyNone])] |}.

(** ** Numeric texts *)

Definition digits (s : string) : bool := all_chars is_digit s.

(** What the three shapes of [is_numeric_value] describe: decimal digits,
    then nothing or a point and more digits, then nothing, one of the
    letters K, M, B in either case, or an exponent. *)
Definition fraction (f : string) : Prop :=
  f = "" ∨ ∃ d, f = "." +:+ d ∧ digits d = true.

Definition magnitude (u : string) : Prop :=
  u = "" ∨ u ∈ ["K"; "M"; "B"; "k"; "m"; "b"] ∨
  ∃ e sign d, u = e +:+ sign +:+ d ∧ e ∈ ["e"; "E"] ∧ sign ∈ [""; "+"; "-"] ∧
              d ≠ "" ∧ digits d = true.

Definition numeric_text (s : string) : Prop :=
  ∃ d f u, s = d +:+ f +:+ u ∧ d ≠ "" ∧ digits d = true ∧ fraction f ∧ magnitude u.

(** ** Labels *)

(** A label that stands for itself in a pattern: letters, digits and
    spaces, as in the three labels that [parse_html_data] passes. *)
Definition plain_char (c : ascii) : bool :=
  let n := N_of_ascii c in
  ((48 <=? n) && (n <=? 57) || (65 <=? n) && (n <=? 90) || (97 <=? n) && (n <=? 122)
   || (n =? 32))%N.

Definition plain_label (label : string) : bool := all_chars plain_char label.

(** ** Strategy 3 *)

(** A text that strategy 3 takes for a value. *)
Definition acceptable (text : string) : Prop :=
  truthy text && is_numeric_value text = true.

(** The texts that strategy 3 looks at for a list of keywords, in the order
    in which it looks at them: keyword by keyword, the elements found by
    class before those found by [data-key]. *)
Definition candidates `{BS4} (sp : soup) (class_keywords : list string) : list string :=
  flat_map (fun keyword => map get_text (find_all_class sp keyword) ++
                           map get_text (find_all_data_key sp keyword))
           class_keywords.

(** A page with four elements of class [fdv] and one with the [data-key]
    [liq]. *)
Definition labelled_soup : BS4 :=
  {| soup := unit; element := string;
     BeautifulSoup := fun _ => Some tt;
     find_all_class := fun _ k => if String.eqb k "fdv"
                                  then ["Fully diluted"; ""; "$1.2M"; "7"] else [];
     find_all_data_key := fun _ k => if String.eqb k "liq" then ["500K"] else [];
     get_text := fun e => e |}.

(** ** Rows of the pool's table *)

Definition metric_names : list string := ["FDV"; "Liquidity"; "24h Volume"].

(** A cell that the worker takes for missing: no value, or a text that is
    empty once stripped. *)
Definition blank (c : cell) : bool := isna c || negb (truthy (strip (str c))).

(** A row whose first two cells hold a value. *)
Definition filled (row : list cell) : Prop :=
  ∃ c0 c1 rest, row = c0 :: c1 :: rest ∧ isna c0 = false ∧ isna c1 = false.

(** A sheet all of whose rows are filled, the second with a blank address. *)
Definition filled_sheet : sheet :=
  {| header := ["network"; "address"];
     body := [ [Val "bsc"; Val "0xaaa"]; [Val "base"; Val " "] ] |}.

(** The table that the run over [pool_sheet] saves when [pool_http]
    answers. *)
Definition pool_result : DataFrame :=
  {| columns := ["network"; "address"; "FDV"; "Liquidity"; "24h Volume"];
     rows := [ (0%nat, [Val "bsc"; Val "0xaaa"; Val "$1.2M"; Val "$500K"; Val "$45.3K"]);
               (1%nat, [Val "ethereum"; NaN; Val "0"; Val "0"; Val "0"]);
               (2%nat, [Val "base"; Val "0xbbb"; Val "0"; Val "0"; Val "0"]) ] |}.

(** ** The decimals run *)

(** A row of a sheet of width [w] as [pd.read_excel] gives it, and as the
    loop of [process_excel] sees it once the column [decimals] is added. *)
Definition sheet_row (w : nat) (raw : list cell) : list cell :=
  take w (raw ++ replicate w NaN).

Definition decimals_row (w : nat) (raw : list cell) : list cell :=
  sheet_row w raw ++ [PyNone].

(** A sheet of three tokens: one on a configured network, one on a network
    that is not configured, one without an address. *)
Definition decimals_sheet : sheet :=
  {| header := ["network"; "address"];
     body := [ [Val "bsc"; Val usdt_bsc]; [Val "solana"; Val "x"]; [Val "ethereum"; NaN] ] |}.

(** Files: the sheet under every path, and every write goes through. *)
Definition reading (sh : sheet) : string → exn + sheet := fun _ => inr sh.

Definition writable : string → DataFrame → option exn := fun _ _ => None.


(* ===================================================================== *)
(** * Facts about strings                                                *)
(* ===================================================================== *)

Lemma app_cons (c : ascii) (a b : string) : String c a +:+ b = String c (a +:+ b).
Proof. reflexivity. Qed.

Lemma app_empty_l (b : string) : "" +:+ b = b.
Proof. reflexivity. Qed.

Lemma app_assoc_s (a b c : string) : (a +:+ b) +:+ c = a +:+ b +:+ c.
Proof. induction a as [|x a IH]; [reflexivity|]. rewrite !app_cons. by f_equal. Qed.

Lemma length_cons (c : ascii) (s : string) :
  String.length (String c s) = S (String.length s).
Proof. reflexivity. Qed.

Lemma length_app_s (a b : string) :
  String.length (a +:+ b) = (String.length a + String.length b)%nat.
Proof. induction a as [|x a IH]; [reflexivity|]. rewrite app_cons. simpl. by f_equal. Qed.

Lemma literal_exact_inv (p s r : string) :
  literal false p s = Some r → s = p +:+ r.
Proof.
  revert s. induction p as [|a p IH]; intros s Hl.
  - simpl in Hl. by injection Hl as ->.
  - destruct s as [|b s]; [discriminate|]. simpl in Hl.
    destruct (Ascii.eqb_spec a b) as [->|]; [|discriminate].
    rewrite app_cons. f_equal. by apply IH.
Qed.

Lemma literal_exact_app (p r : string) : literal false p (p +:+ r) = Some r.
Proof.
  induction p as [|a p IH]; [reflexivity|].
  rewrite app_cons. simpl. by rewrite Ascii.eqb_refl.
Qed.

Lemma span_inv (p : ascii → bool) (s x r : string) :
  span p s = (x, r) →
  s = x +:+ r ∧ all_chars p x = true ∧
  match r with String c _ => p c = false | EmptyString => True end.
Proof.
  revert x r. induction s as [|c s IH]; intros x r Hs; simpl in Hs.
  - by injection Hs as <- <-.
  - destruct (p c) eqn:Hc.
    + destruct (span p s) as [x' r'] eqn:Hs'. injection Hs as <- <-.
      destruct (IH x' r' eq_refl) as (-> & Hx & Hr).
      rewrite app_cons. simpl. rewrite Hc. done.
    + injection Hs as <- <-. done.
Qed.

Lemma span_app (p : ascii → bool) (x r : string) :
  all_chars p x = true →
  match r with String c _ => p c = false | EmptyString => True end →
  span p (x +:+ r) = (x, r).
Proof.
  induction x as [|c x IH]; intros Hx Hr.
  - rewrite app_empty_l. destruct r as [|c r]; [reflexivity|]. simpl. by rewrite Hr.
  - simpl in Hx. apply andb_true_iff in Hx as [Hc Hx].
    rewrite app_cons. simpl. rewrite Hc, (IH Hx Hr). done.
Qed.

(* ===================================================================== *)
(** * Strategy 1: the marker pattern and [re.findall]                    *)
(* ===================================================================== *)

(** The pattern matches at the start of [s] exactly when [s] is the head
    of the marker, a non-empty text without [<], the tail of the marker, and
    anything after: the greedy group cannot end anywhere else. *)
Lemma match_marker_inv (s x rest : string) :
  match_marker false s = Some (x, rest) →
  s = marker_head +:+ x +:+ marker_tail +:+ rest ∧
  x ≠ "" ∧ all_chars (not_char "<") x = true.
Proof.
  unfold match_marker. intros Hm.
  destruct (literal false marker_head s) as [r1|] eqn:H1; [|discriminate].
  destruct (span (not_char "<") r1) as [y r2] eqn:H2.
  destruct y as [|c y]; [discriminate|].
  destruct (literal false marker_tail r2) as [r3|] eqn:H3; [|discriminate].
  injection Hm as <- <-.
  apply literal_exact_inv in H1, H3. apply span_inv in H2 as (-> & Hy & _).
  subst. done.
Qed.

Lemma match_marker_intro (x rest : string) :
  x ≠ "" → all_chars (not_char "<") x = true →
  match_marker false (marker_head +:+ x +:+ marker_tail +:+ rest) = Some (x, rest).
Proof.
  intros Hne Hx. unfold match_marker. rewrite literal_exact_app.
  rewrite (span_app _ x (marker_tail +:+ rest) Hx); [|reflexivity].
  destruct x as [|c x]; [done|]. by rewrite literal_exact_app.
Qed.

Lemma disagree_literal (a p y : string) :
  disagree a p = true → ∀ q, literal false (p +:+ q) (a +:+ y) = None.
Proof.
  revert p. induction a as [|x a IH]; intros [|c p] Hd q; try discriminate.
  rewrite !app_cons. simpl in *.
  destruct (Ascii.eqb_spec c x) as [->|Hne].
  - rewrite Ascii.eqb_refl in Hd. simpl in Hd. by apply IH.
  - done.
Qed.

Lemma match_marker_disagree (a y : string) :
  disagree a marker_start = true → match_marker false (a +:+ y) = None.
Proof.
  intros Hd. unfold match_marker.
  change marker_head with (marker_start +:+ Py.drop 4 marker_head).
  by rewrite (disagree_literal a marker_start y Hd).
Qed.

Lemma disagree_app (a b p : string) :
  disagree a p = true → disagree (a +:+ b) p = true.
Proof.
  revert p. induction a as [|c a IH]; intros [|d p]; try done.
  rewrite app_cons. simpl. destruct (negb (Ascii.eqb c d)); simpl; [done|]. apply IH.
Qed.

Lemma inert_app (a b : string) : inert a = true → inert b = true → inert (a +:+ b) = true.
Proof.
  induction a as [|x a IH]; intros Ha Hb; [done|].
  simpl in Ha. apply andb_true_iff in Ha as [Hd Ha].
  change (inert (String x a +:+ b))
    with (disagree (String x a +:+ b) marker_start && inert (a +:+ b)).
  by rewrite (IH Ha Hb), andb_true_r, disagree_app.
Qed.

Lemma inert_group (x : string) : all_chars (not_char "<") x = true → inert x = true.
Proof.
  induction x as [|c x IH]; [done|]. simpl. intros [Hc Hx]%andb_true_iff.
  rewrite (IH Hx), andb_true_r. unfold not_char in Hc.
  destruct (Ascii.eqb c "<"); done.
Qed.

Lemma marker_occurrences_inert (a y : string) :
  inert a = true → marker_occurrences (a +:+ y) = marker_occurrences y.
Proof.
  induction a as [|c a IH]; [done|]. intros [Hd Ha]%andb_true_iff.
  rewrite app_cons.
  change (marker_occurrences (String c (a +:+ y)))
    with (match match_marker false (String c (a +:+ y)) with
          | Some (x, _) => x :: marker_occurrences (a +:+ y)
          | None => marker_occurrences (a +:+ y)
          end).
  rewrite <- app_cons, (match_marker_disagree _ _ Hd). by apply IH.
Qed.

Lemma marker_match_shape (x rest : string) :
  marker_head +:+ x +:+ marker_tail +:+ rest = String "<" (match_rest x +:+ rest).
Proof.
  unfold match_rest. rewrite !app_assoc_s.
  change marker_head with (String "<" marker_head_rest). apply app_cons.
Qed.

Lemma match_rest_inert (x : string) :
  all_chars (not_char "<") x = true → inert (match_rest x) = true.
Proof.
  intros Hx. unfold match_rest.
  repeat apply inert_app; [by vm_compute|by apply inert_group|by vm_compute].
Qed.

Lemma findall_from_skip (a y : string) :
  findall_from (String.length a) (a +:+ y) = findall_from 0 y.
Proof. induction a as [|c a IH]; [done|]. rewrite app_cons. simpl. apply IH. Qed.

(** The two equations of [re.findall]: after a match the scan goes on
    behind it, otherwise one character further. *)
Lemma findall_match (s x rest : string) :
  match_marker false s = Some (x, rest) →
  findall_marker s = x :: findall_marker rest.
Proof.
  intros Hm. destruct (match_marker_inv _ _ _ Hm) as (Hs & Hne & Hx).
  unfold findall_marker. destruct s as [|c s']; [discriminate|].
  change (findall_from 0 (String c s'))
    with (match match_marker false (String c s') with
          | Some (x, rest) =>
              x :: findall_from (String.length (String c s') - String.length rest - 1) s'
          | None => findall_from 0 s'
          end).
  rewrite Hm. f_equal.
  rewrite marker_match_shape in Hs. injection Hs as -> ->.
  replace (String.length (String "<" (match_rest x +:+ rest)) - String.length rest - 1)%nat
    with (String.length (match_rest x)).
  - apply findall_from_skip.
  - rewrite length_cons, length_app_s. lia.
Qed.

Lemma findall_no_match (c : ascii) (s : string) :
  match_marker false (String c s) = None →
  findall_marker (String c s) = findall_marker s.
Proof. unfold findall_marker. simpl. by intros ->. Qed.

(** Matches of the pattern never overlap, so the scan of [re.findall]
    misses none: it returns what is captured at every position where the
    pattern matches, from the left. *)
Lemma findall_marker_occurrences (s : string) :
  findall_marker s = marker_occurrences s.
Proof.
  remember (String.length s) as n eqn:Hn. revert s Hn.
  induction n as [n IH] using lt_wf_ind. intros s ->.
  destruct s as [|c s]; [reflexivity|].
  destruct (match_marker false (String c s)) as [[x rest]|] eqn:Hm.
  - rewrite (findall_match _ _ _ Hm).
    change (marker_occurrences (String c s))
      with (match match_marker false (String c s) with
            | Some (x, _) => x :: marker_occurrences s
            | None => marker_occurrences s
            end).
    rewrite Hm. f_equal.
    destruct (match_marker_inv _ _ _ Hm) as (Hs & Hne & Hx).
    rewrite marker_match_shape in Hs. injection Hs as -> ->.
    rewrite marker_occurrences_inert by by apply match_rest_inert.
    apply (IH (String.length rest)); [|done].
    rewrite length_cons, length_app_s. lia.
  - rewrite (findall_no_match _ _ Hm).
    change (marker_occurrences (String c s))
      with (match match_marker false (String c s) with
            | Some (x, _) => x :: marker_occurrences s
            | None => marker_occurrences s
            end).
    rewrite Hm. apply (IH (String.length s)); [simpl; lia|done].
Qed.

Lemma extract_all_values_by_pattern_occurrences (html : string) :
  extract_all_values_by_pattern html =
  match marker_occurrences html with
  | [a; b; c] => (strip a, strip b, strip c)
  | _ => zeros
  end.
Proof. unfold extract_all_values_by_pattern. by rewrite findall_marker_occurrences. Qed.

(** C1.  Strategy 1 on a body in which the marker pattern occurs exactly
    three times returns the three captured texts, stripped, in the order of
    the document, as (fdv, liquidity, volume24h); on a body in which it
    occurs any other number of times it returns ("0", "0", "0"). *)
Theorem extract_all_values_by_pattern_exactly_three (html : string) :
  (∀ a b c, marker_occurrences html = [a; b; c] →
     extract_all_values_by_pattern html = (strip a, strip b, strip c)) ∧
  (length (marker_occurrences html) ≠ 3%nat →
     extract_all_values_by_pattern html = ("0", "0", "0")).
Proof.
  rewrite extract_all_values_by_pattern_occurrences. split.
  - by intros a b c ->.
  - intros Hn. by destruct (marker_occurrences html) as [|a [|b [|c [|d l]]]].
Qed.

Lemma extract_all_values_by_pattern_exactly_three_witness :
  extract_all_values_by_pattern three_metrics_page = ("$1.2M", "$500K", "$45.3K") ∧
  extract_all_values_by_pattern two_metrics_page = ("0", "0", "0").
Proof.
  split.
  - apply (proj1 (extract_all_values_by_pattern_exactly_three three_metrics_page)
             "$1.2M" " $500K" "$45.3K ").
    vm_compute. reflexivity.
  - apply (proj2 (extract_all_values_by_pattern_exactly_three two_metrics_page)).
    vm_compute. lia.
Defined.

Lemma drop_succ (k : nat) (t : string) (c : ascii) (s : string) :
  Py.drop k t = String c s → Py.drop (S k) t = s.
Proof.
  revert t. induction k as [|k IH]; intros [|d t] Hd; simpl in *.
  - discriminate.
  - by injection Hd.
  - discriminate.
  - by apply IH.
Qed.

Lemma marker_occurrences_from (t s : string) (k : nat) :
  Py.drop k t = s →
  marker_occurrences s =
  omap (fun i => fst <$> match_marker false (Py.drop i t)) (seq k (String.length s)).
Proof.
  revert k. induction s as [|c s IH]; intros k Hd; [reflexivity|].
  rewrite length_cons. cbn [seq omap list_omap]. rewrite Hd.
  change (marker_occurrences (String c s))
    with (match match_marker false (String c s) with
          | Some (x, _) => x :: marker_occurrences s
          | None => marker_occurrences s
          end).
  rewrite (IH (S k) (drop_succ _ _ _ _ Hd)).
  by destruct (match_marker false (String c s)) as [[x r]|].
Qed.

(** The occurrences, position by position: the text captured at every
    index of the body where the pattern matches, by increasing index. *)
Lemma marker_occurrences_positions (s : string) :
  marker_occurrences s =
  omap (fun i => fst <$> match_marker false (Py.drop i s)) (seq 0 (String.length s)).
Proof. by apply marker_occurrences_from. Qed.

(* ===================================================================== *)
(** * The extraction pipeline                                            *)
(* ===================================================================== *)

Lemma events_bind {E A B} (m : Traced E A) (k : A → Traced E B) :
  events (bind m k) = events m ++ events (k (value m)).
Proof. destruct m as [a t]. unfold bind, events, value. simpl. by destruct (k a). Qed.

Lemma value_bind {E A B} (m : Traced E A) (k : A → Traced E B) :
  value (bind m k) = value (k (value m)).
Proof. destruct m as [a t]. unfold bind, events, value. simpl. by destruct (k a). Qed.

Section Pipeline.
Context `{BS4} `{Regex}.

Lemma zeros_eqb (f l v : string) :
  String.eqb f "0" && String.eqb l "0" && String.eqb v "0" = true ↔ (f, l, v) = zeros.
Proof.
  unfold zeros. rewrite !andb_true_iff, !String.eqb_eq. split.
  - by intros [[-> ->] ->].
  - intros [= -> -> ->]. done.
Qed.

(** Where strategy 1 returns anything but the default triple, the pipeline
    returns its triple, an empty text replaced by "0", and runs nothing
    else. *)
Lemma parse_html_data_commit (html : string) (sp : soup) (f l v : string) :
  BeautifulSoup html = Some sp →
  extract_all_values_by_pattern html = (f, l, v) →
  (f, l, v) ≠ zeros →
  parse_html_data html = ((or_zero f, or_zero l, or_zero v), [PatternTriple]).
Proof.
  intros Hsp He Hne. unfold parse_html_data. rewrite Hsp, He.
  cbn [emit bind].
  destruct (String.eqb f "0" && String.eqb l "0" && String.eqb v "0") eqn:Hz.
  - apply zeros_eqb in Hz. done.
  - reflexivity.
Qed.

(** Where strategy 1 returns the default triple, the three labelled
    searches of strategy 2 run. *)
Lemma parse_html_data_fall_through (html : string) (sp : soup) :
  BeautifulSoup html = Some sp →
  extract_all_values_by_pattern html = zeros →
  ∃ rest, events (parse_html_data html) =
          [PatternTriple; LabeledPattern "FDV"; LabeledPattern "liq";
           LabeledPattern "24h VOL"] ++ rest.
Proof.
  intros Hsp He. unfold parse_html_data. rewrite Hsp, He.
  rewrite events_bind. cbn [emit value events fst snd zeros].
  rewrite !String.eqb_refl. cbn [andb].
  do 3 (rewrite events_bind; cbn [emit value events fst snd]).
  by eexists.
Qed.

(** C2, as the code has it.  For a body that the HTML parser accepts: when
    the marker pattern occurs exactly three times and the three stripped
    texts are not all "0", the pipeline returns that triple, an empty text
    replaced by "0", and strategy 1 is the only strategy that runs; and
    whenever another strategy runs, strategy 1 had returned
    ("0", "0", "0"). *)
Theorem parse_html_data_commits_to_strategy_1 (html : string) (sp : soup) :
  BeautifulSoup html = Some sp →
  (∀ a b c, marker_occurrences html = [a; b; c] →
     (strip a, strip b, strip c) ≠ ("0", "0", "0") →
     parse_html_data html =
       ((or_zero (strip a), or_zero (strip b), or_zero (strip c)), [PatternTriple])) ∧
  (∀ s, s ∈ events (parse_html_data html) → s ≠ PatternTriple →
     extract_all_values_by_pattern html = ("0", "0", "0")).
Proof.
  intros Hsp. split.
  - intros a b c Ho Hne. apply (parse_html_data_commit html sp); [done| |done].
    by rewrite extract_all_values_by_pattern_occurrences, Ho.
  - intros s Hs Hne.
    destruct (extract_all_values_by_pattern html) as [[f l] v] eqn:He.
    destruct (decide ((f, l, v) = zeros)) as [Hz|Hz]; [done|].
    rewrite (parse_html_data_commit html sp f l v Hsp He Hz) in Hs.
    cbn in Hs. apply list_elem_of_singleton in Hs. done.
Qed.

(** ** Strategy 4 *)

(** C6, at the code.  Whatever the patterns of strategy 4 find in the body,
    nothing is taken from the matches: the three results are the default. *)
Theorem extract_from_script_data_always_default (html : string) :
  extract_from_script_data html = ("0", "0", "0").
Proof. reflexivity. Qed.

(** ** Fetching *)

(** C5.  [fetch_token_data] returns ("0", "0", "0") for a response whose
    status is not 200 (404 or another) and for a request that fails with a
    [RequestException] (a timeout, a connection error), in both cases
    without raising; for a response with status 200 it returns what
    [parse_html_data] makes of the body. *)
Theorem fetch_token_data_default_unless_200 (http : Http) (network address : string) :
  let url := base_url +:+ "/" +:+ network +:+ "/" +:+ address +:+ "/" in
  (∀ r, http url = inr r → status r ≠ 200 →
     fetch_token_data http network address = inr ("0", "0", "0")) ∧
  (∀ e, http url = inl (RequestException e) →
     fetch_token_data http network address = inr ("0", "0", "0")) ∧
  (∀ r, http url = inr r → status r = 200 →
     fetch_token_data http network address = inr (value (parse_html_data (text r)))).
Proof.
  intros url. unfold fetch_token_data. fold url. repeat split.
  - intros r -> Hs. apply Z.eqb_neq in Hs. rewrite Hs.
    by destruct (status r =? 404).
  - by intros e ->.
  - intros r -> Hs. apply Z.eqb_eq in Hs. by rewrite Hs.
Qed.

End Pipeline.

Lemma fetch_token_data_default_unless_200_witness :
  @fetch_token_data empty_soup no_script_matches not_found "bsc" "0xaaa" = inr ("0", "0", "0") ∧
  @fetch_token_data empty_soup no_script_matches timing_out "bsc" "0xaaa" = inr ("0", "0", "0") ∧
  @fetch_token_data empty_soup no_script_matches serving "bsc" "0xaaa" =
    inr (value (@parse_html_data empty_soup no_script_matches three_metrics_page)).
Proof.
  split; [|split].
  - apply (proj1 (@fetch_token_data_default_unless_200 empty_soup no_script_matches
                    not_found "bsc" "0xaaa") _ eq_refl).
    cbn. lia.
  - apply (proj1 (proj2 (@fetch_token_data_default_unless_200 empty_soup no_script_matches
                           timing_out "bsc" "0xaaa")) Timeout eq_refl).
  - apply (proj2 (proj2 (@fetch_token_data_default_unless_200 empty_soup no_script_matches
                           serving "bsc" "0xaaa")) _ eq_refl).
    reflexivity.
Defined.

Lemma parse_html_data_commits_to_strategy_1_witness :
  @parse_html_data empty_soup no_script_matches three_metrics_page =
    (("$1.2M", "$500K", "$45.3K"), [PatternTriple]).
Proof.
  apply (proj1 (@parse_html_data_commits_to_strategy_1 empty_soup no_script_matches
                  three_metrics_page tt eq_refl) "$1.2M" " $500K" "$45.3K ").
  - vm_compute. reflexivity.
  - vm_compute. discriminate.
Defined.

(** C2, as stated, fails.  On [three_zeros_page] the pattern occurs three
    times, yet strategy 2 runs and, where the parser accepts the page, its
    value replaces the first of the three; on [blank_capture_page] the
    pattern occurs three times and the result is not the three stripped
    texts, whatever the parser does. *)
Lemma parse_html_data_three_matches_counterexample :
  marker_occurrences three_zeros_page = ["0"; "0"; "0"] ∧
  (∀ (bs : BS4) (rx : Regex), BeautifulSoup three_zeros_page ≠ None →
     (value (parse_html_data three_zeros_page)).1.1 = "5" ∧
     LabeledPattern "FDV" ∈ events (parse_html_data three_zeros_page)) ∧
  marker_occurrences blank_capture_page = [" "; "1"; "2"] ∧
  (∀ (bs : BS4) (rx : Regex),
     value (parse_html_data blank_capture_page) ≠ (strip " ", strip "1", strip "2")).
Proof.
  split; [by vm_compute|]. split; [|split; [by vm_compute|]].
  - intros bs rx Hsp. unfold parse_html_data.
    destruct (BeautifulSoup three_zeros_page) as [sp|]; [|done].
    vm_compute. split; [done|]. apply list_elem_of_further, list_elem_of_here.
  - intros bs rx. unfold parse_html_data.
    destruct (BeautifulSoup blank_capture_page) as [sp|]; vm_compute; discriminate.
Qed.

(* ===================================================================== *)
(** * Decoding the result of the decimals call                           *)
(* ===================================================================== *)

Lemma all_chars_app (p : ascii → bool) (a b : string) :
  all_chars p (a +:+ b) = all_chars p a && all_chars p b.
Proof.
  induction a as [|c a IH]; [reflexivity|].
  rewrite app_cons. simpl. by rewrite IH, andb_assoc.
Qed.








Lemma hex_digit_not_special (c : ascii) :
  is_Some (hex_digit c) →
  int_space c = false ∧ Ascii.eqb c "+" = false ∧ Ascii.eqb c "-" = false ∧
  Ascii.eqb c "_" = false ∧ Ascii.eqb "_" c = false ∧ Ascii.eqb "x" c = false.
Proof.
  intros [v Hv]. revert Hv.
  destruct c as [[] [] [] [] [] [] [] []]; vm_compute; done.
Qed.

Lemma scan_digits_hex (d : string) :
  ∀ acc n, is_hex_digits d = true →
    scan_digits acc n false d =
    Some (acc * 16 ^ Z.of_nat (String.length d) + big_endian d,
          (n + String.length d)%nat, "").
Proof.
  induction d as [|c d IH]; intros acc n Hd.
  - simpl. rewrite Nat.add_0_r. change (Z.of_nat 0) with 0. by rewrite Z.pow_0_r, Z.mul_1_r, Z.add_0_r.
  - cbn [is_hex_digits all_chars] in Hd. apply andb_true_iff in Hd as [Hc Hd].
    apply bool_decide_eq_true in Hc.
    destruct (hex_digit_not_special c Hc) as (_ & _ & _ & Hu & _).
    destruct Hc as [v Hv]. cbn [scan_digits]. rewrite Hu, Hv, (IH _ _ Hd).
    cbn [big_endian]. unfold digit_value.
    rewrite Hv, length_cons, Nat2Z.inj_succ, Z.pow_succ_r by lia.
    rewrite Nat.add_succ_r. cbn [Nat.add]. do 3 f_equal. ring.
Qed.

Lemma hex_to_decimal_try_str (s : string) :
  hex_to_decimal_try (JStr s) =
  decode_tail (if startswith s "0x" then Py.drop 2 s else s).
Proof. reflexivity. Qed.

Lemma lstrip_zeros_hex (d : string) :
  is_hex_digits d = true →
  is_hex_digits (lstrip_zeros d) = true ∧
  big_endian (lstrip_zeros d) = big_endian d ∧
  startswith (lstrip_zeros d) "0" = false.
Proof.
  induction d as [|c d IH]; [done|]. intros Hd.
  pose proof Hd as Hd'. cbn [is_hex_digits all_chars] in Hd'.
  apply andb_true_iff in Hd' as [_ Hd'].
  unfold lstrip_zeros. cbn [lstrip_chars].
  destruct (Ascii.eqb_spec "0" c) as [<-|Hc].
  - destruct (IH Hd') as (H1 & H2 & H3). repeat split; [done| |done].
    unfold lstrip_zeros in H2. rewrite H2. cbn [big_endian].
    change (digit_value "0") with 0. lia.
  - repeat split; [done..|]. cbn [startswith].
    destruct (Ascii.eqb_spec "0" c); done.
Qed.

Lemma int16_digits (d : string) :
  is_hex_digits d = true → d ≠ "" → startswith d "0" = false →
  int16 d = inr (big_endian d).
Proof.
  destruct d as [|c d]; [done|]. intros Hd _ H0.
  pose proof Hd as Hc. cbn [is_hex_digits all_chars] in Hc.
  apply andb_true_iff in Hc as [Hc _]. apply bool_decide_eq_true in Hc.
  destruct (hex_digit_not_special c Hc) as (Hsp & Hp & Hm & _ & Hu & _).
  cbn [startswith] in H0. rewrite andb_true_r in H0.
  unfold int16. cbn [lstrip_chars]. rewrite Hsp. cbn [strip_sign]. rewrite Hp, Hm.
  assert (strip_0x (String c d) = String c d) as ->.
  { destruct d as [|b d]; [done|]. cbn [strip_0x].
    rewrite Ascii.eqb_sym, H0. done. }
  cbn [startswith]. rewrite Hu. cbn [andb].
  rewrite (scan_digits_hex _ 0 0%nat Hd). rewrite length_cons. cbn [Nat.add lstrip_chars].
  f_equal. lia.
Qed.

Lemma decode_tail_hex (d : string) :
  is_hex_digits d = true → decode_tail d = inr (big_endian d).
Proof.
  intros Hd. unfold decode_tail.
  destruct (lstrip_zeros_hex d Hd) as (H1 & H2 & H3).
  destruct (lstrip_zeros d) as [|c r] eqn:Hr.
  - cbn [truthy negb]. rewrite <- H2. reflexivity.
  - cbn [truthy negb]. rewrite <- H2. by apply int16_digits.
Qed.

Lemma hex_digits_no_prefix (d : string) :
  is_hex_digits d = true → startswith d "0x" = false.
Proof.
  destruct d as [|a [|b d]]; [done| |].
  - intros _. cbn. by rewrite andb_false_r.
  - intros Hd. cbn [is_hex_digits all_chars] in Hd.
    apply andb_true_iff in Hd as [_ Hd]. apply andb_true_iff in Hd as [Hb _].
    apply bool_decide_eq_true in Hb.
    destruct (hex_digit_not_special b Hb) as (_ & _ & _ & _ & _ & Hx).
    cbn [startswith]. rewrite Hx. by rewrite andb_false_r.
Qed.

(** A string of hexadecimal digits, with or without the prefix [0x], is
    decoded to the integer it denotes, whatever its leading zeros. *)
Lemma hex_to_decimal_digits (d : string) :
  is_hex_digits d = true →
  hex_to_decimal (JStr d) = big_endian d ∧
  hex_to_decimal (JStr ("0x" +:+ d)) = big_endian d.
Proof.
  intros Hd. unfold hex_to_decimal. rewrite !hex_to_decimal_try_str.
  rewrite (hex_digits_no_prefix d Hd).
  change (startswith ("0x" +:+ d) "0x") with true.
  change (Py.drop 2 ("0x" +:+ d)) with d. cbn [negb].
  by rewrite (decode_tail_hex d Hd).
Qed.



(* ===================================================================== *)
(** * The decimals call                                                  *)
(* ===================================================================== *)

Lemma rpc_endpoints_nonempty (network endpoint : string) :
  get_rpc_endpoint network = Some endpoint → truthy endpoint = true.
Proof.
  unfold get_rpc_endpoint, rpc_endpoints. intros Hl.
  apply elem_of_list_to_map_2 in Hl.
  repeat (apply elem_of_cons in Hl as [[= _ ->]|Hl]; [done|]).
  by apply elem_of_nil in Hl.
Qed.

(** With a known network exactly one request is posted, and the value is
    read off its response. *)
Lemma get_token_decimals_supported (rpc : Rpc) (network address endpoint : string) :
  get_rpc_endpoint network = Some endpoint →
  get_token_decimals rpc network address =
  (match rpc (decimals_request endpoint address) with
   | inr resp =>
       match read_result resp with
       | inr (Some r) => if json_truthy r then hex_to_decimal r else 18
       | _ => 18
       end
   | inl _ => 18
   end, [decimals_request endpoint address]).
Proof.
  intros He. unfold get_token_decimals. rewrite He, (rpc_endpoints_nonempty _ _ He).
  cbn [negb]. unfold call_contract_method, decimals_request.
  destruct (startswith address "0x"); cbn [negb bind emit ret];
    (destruct (rpc _) as [e|resp]; [done|]);
    (destruct (read_result resp) as [e|[r|]]; [done| |done]);
    by destruct (json_truthy r).
Qed.

Lemma read_result_dict (resp : rpc_response) (members : list (string * json)) :
  status_code resp = 200 → json_body resp = inr (JDict members) →
  read_result resp =
  inr (match dict_get "result" members with
       | Some r => if json_truthy r then Some r else None
       | None => None
       end).
Proof.
  intros Hs Hb. unfold read_result. rewrite Hs, Hb. cbn.
  destruct (dict_get "result" members) as [r|]; cbn; [|done].
  by destruct (json_truthy r).
Qed.











(** ** Rows without an address *)

(** A row whose address cell is missing gets 18 and nothing is sent. *)
Lemma process_row_missing_address (rpc : Rpc) (network : cell) (rest : list cell) :
  process_row rpc (network :: NaN :: rest) = (18, []).
Proof.
  unfold process_row. cbn [iloc lookup list_lookup].
  change (str NaN) with "nan". change (strip "nan") with "nan".
  cbn [String.eqb]. rewrite !Ascii.eqb_refl. by rewrite !orb_true_r.
Qed.

(** C3, at the code.  For the row ("bsc", " "), whose address is
    whitespace only, one [eth_call] is posted to the endpoint of the
    network, to the address [0x]. *)
Theorem process_row_blank_address_posts (rpc : Rpc) :
  events (process_row rpc [Val "bsc"; Val " "]) =
  [{| url := "https://bsc-dataseed.binance.org"; to := "0x"; data := "0x313ce567" |}].
Proof.
  change (process_row rpc [Val "bsc"; Val " "])
    with (get_token_decimals rpc "bsc" "").
  by rewrite (get_token_decimals_supported rpc "bsc" "" "https://bsc-dataseed.binance.org").
Qed.

(** The value stored for that row is what the endpoint answers. *)
Lemma process_row_blank_address_value :
  value (process_row (answers "0x06") [Val "bsc"; Val " "]) = 6.
Proof. reflexivity. Qed.

(* ===================================================================== *)
(** * The run over the spreadsheet                                       *)
(* ===================================================================== *)

(** ** Writing into a table *)

Lemma upd_row_label (i : nat) (g : list cell → list cell) (r : nat * list cell) :
  (upd_row i g r).1 = r.1.
Proof. unfold upd_row. by destruct (Nat.eqb r.1 i). Qed.

Lemma has_label_fmap (df : DataFrame) (cols : list string)
    (h : nat * list cell → nat * list cell) (i : nat) :
  (∀ r, (h r).1 = r.1) →
  has_label {| columns := cols; rows := map h (rows df) |} i = has_label df i.
Proof.
  intros Hh. unfold has_label. cbn [rows].
  induction (rows df) as [|r rs IH]; [done|]. cbn [map existsb].
  by rewrite Hh, IH.
Qed.

Lemma loc_set_present (df : DataFrame) (i : nat) (col : string) (v : cell) :
  has_label df i = true →
  loc_set df i col v =
  {| columns := columns df;
     rows := map (upd_row i (set_cells (columns df) col v)) (rows df) |}.
Proof. intros Hi. unfold loc_set. by rewrite Hi. Qed.

Lemma apply_writes_present (ws : list (string * cell)) (df : DataFrame) (i : nat) :
  has_label df i = true →
  apply_writes df i ws =
  {| columns := columns df;
     rows := map (upd_row i (write_cells (columns df) ws)) (rows df) |}.
Proof.
  revert df. induction ws as [|[col v] ws IH]; intros df Hi.
  - unfold apply_writes. cbn [fold_left]. destruct df as [cols rs]. cbn [columns rows].
    f_equal. rewrite <- (map_id rs) at 1. apply map_ext.
    intros [l r]. unfold upd_row. cbn. by destruct (Nat.eqb l i).
  - unfold apply_writes. cbn [fold_left fst snd].
    fold (apply_writes (loc_set df i col v) i ws).
    rewrite (loc_set_present _ _ _ _ Hi), IH.
    + cbn [columns rows]. f_equal. rewrite map_map. apply map_ext.
      intros [l r]. unfold upd_row. cbn [fst snd].
      destruct (Nat.eqb l i) eqn:Hl; cbn [fst snd]; by rewrite ?Hl.
    + rewrite has_label_fmap; [done|]. intros r. apply upd_row_label.
Qed.

(** Where every future carries a label of the table, the loop over
    [as_completed] changes each row by the futures of its own label and
    nothing else: no row is added, moved or dropped. *)
Lemma aggregate_rows (fs : list future) (df : DataFrame) :
  Forall (fun f => has_label df (writes_of f).1 = true) fs →
  aggregate df fs =
  {| columns := columns df;
     rows := map (fun r => (r.1, writes_to (columns df) r.1 fs r.2)) (rows df) |}.
Proof.
  revert df. induction fs as [|f fs IH]; intros df Hfs.
  - destruct df as [cols rs]. unfold aggregate. cbn. f_equal.
    rewrite <- (map_id rs) at 1. apply map_ext. by intros [l r].
  - apply Forall_cons in Hfs as [Hf Hfs].
    unfold aggregate. cbn [fold_left]. fold (aggregate (record_result df f) fs).
    unfold record_result. destruct (writes_of f) as [label ws] eqn:Hw. cbn [fst] in Hf.
    rewrite (apply_writes_present _ _ _ Hf), IH.
    + cbn [columns rows]. f_equal. rewrite map_map. apply map_ext.
      intros [l r]. unfold upd_row, writes_to. cbn [fst snd fold_left]. rewrite Hw.
      cbn [fst snd]. rewrite (Nat.eqb_sym l label).
      by destruct (Nat.eqb label l).
    + eapply Forall_impl; [exact Hfs|]. intros g Hg. cbn beta in Hg.
      rewrite has_label_fmap; [done|]. intros r. apply upd_row_label.
Qed.

(** ** Futures of distinct labels *)

Lemma writes_to_none (cols : list string) (label : nat) (fs : list future)
    (cells : list cell) :
  label ∉ map label_of fs → writes_to cols label fs cells = cells.
Proof.
  revert cells. induction fs as [|f fs IH]; intros cells Hn; [done|].
  cbn [map] in Hn. apply not_elem_of_cons in Hn as [Hf Hn].
  unfold writes_to. cbn [fold_left]. fold (label_of f).
  destruct (Nat.eqb_spec label (label_of f)) as [He|_]; [done|].
  by apply IH.
Qed.

(** Among futures of distinct labels, the one of the label of a row alone
    decides what is written to that row, wherever it stands in the list. *)
Lemma writes_to_unique (cols : list string) (fs : list future) (f : future)
    (cells : list cell) :
  NoDup (map label_of fs) → f ∈ fs →
  writes_to cols (label_of f) fs cells = write_cells cols (writes_of f).2 cells.
Proof.
  revert cells. induction fs as [|g fs IH]; intros cells Hnd Hf.
  - by apply elem_of_nil in Hf.
  - cbn [map] in Hnd. apply NoDup_cons in Hnd as [Hg Hnd].
    unfold writes_to. cbn [fold_left]. fold (label_of g).
    fold (writes_to cols (label_of f) fs).
    apply elem_of_cons in Hf as [->|Hf].
    + rewrite Nat.eqb_refl. by apply writes_to_none.
    + destruct (Nat.eqb_spec (label_of f) (label_of g)) as [He|_].
      * destruct Hg. rewrite <- He. apply list_elem_of_In, in_map, list_elem_of_In, Hf.
      * by apply IH.
Qed.

(** ** From the rows to the futures *)

Lemma make_tasks_wide (rs : list (nat * list cell)) :
  Forall (fun r => (2 ≤ length r.2)%nat) rs →
  make_tasks rs = Returns (map task_of rs).
Proof.
  induction 1 as [|[i [|c0 [|c1 row]]] rs Hr _ IH]; cbn in *; try lia; [done|].
  by rewrite IH.
Qed.

Section Run.
Context `{BS4} `{Regex}.

Lemma process_single_row_index (http : Http) (t : task) :
  (process_single_row http t).1 = t.1.1.
Proof.
  destruct t as [[i n] a]. unfold process_single_row.
  destruct (_ || _); [done|]. by destruct (fetch_token_data _ _ _).
Qed.

Lemma writes_of_submit (http : Http) (r : nat * list cell) :
  writes_of (submit http (task_of r)) = (r.1, metric_cells (metrics_of http r)).
Proof.
  unfold submit, writes_of, metrics_of.
  pose proof (process_single_row_index http (task_of r)) as Hi.
  destruct (process_single_row http (task_of r)) as [i [[f l] v]].
  cbn in Hi. by subst i.
Qed.

(** Whatever the order of completion, the loop ends with that table. *)
Lemma aggregate_any_order (http : Http) (df : DataFrame) (completed : list future) :
  NoDup (map fst (rows df)) →
  completed ≡ₚ map (submit http) (map task_of (rows df)) →
  aggregate df completed = final_table http df.
Proof.
  intros Hnd Hp.
  assert (map label_of (map (submit http) (map task_of (rows df))) = map fst (rows df))
    as Hlabels.
  { rewrite !map_map. apply map_ext. intros r. unfold label_of.
    by rewrite writes_of_submit. }
  assert (NoDup (map label_of completed)) as Hnd'.
  { rewrite (Permutation_map label_of Hp). by rewrite Hlabels. }
  rewrite aggregate_rows.
  - unfold final_table. f_equal. apply map_ext_in. intros r Hr. f_equal.
    pose proof (writes_of_submit http r) as Hw.
    replace r.1 with (label_of (submit http (task_of r)))
      by (unfold label_of; by rewrite Hw).
    rewrite writes_to_unique; [by rewrite Hw|done|].
    rewrite Hp. apply list_elem_of_In, in_map, in_map, Hr.
  - apply Forall_forall. intros f Hf. rewrite Hp in Hf.
    apply list_elem_of_In, in_map_iff in Hf as (t & <- & Ht).
    apply in_map_iff in Ht as (r & <- & Hr).
    rewrite writes_of_submit. cbn [fst]. unfold has_label.
    apply existsb_exists. exists r. split; [done|]. apply Nat.eqb_refl.
Qed.

End Run.

(** ** The table before the pool starts *)

Lemma map_is_fmap {A B} (f : A → B) (l : list A) : map f l = f <$> l.
Proof. reflexivity. Qed.

Lemma pad_columns_returns (k : nat) (df df' : DataFrame) :
  pad_columns k df = Returns df' →
  length (columns df') = (length (columns df) + k)%nat ∧
  rows df' = map (fun r => (r.1, r.2 ++ replicate k PyNone)) (rows df).
Proof.
  revert df. induction k as [|k IH]; intros df Hp; cbn [pad_columns] in Hp.
  - injection Hp as <-. split; [lia|].
    rewrite <- (map_id (rows df)) at 1. apply map_ext. intros [l r]. cbn.
    by rewrite app_nil_r.
  - destruct (bool_decide _) eqn:Hin; [discriminate|].
    apply IH in Hp as [Hc Hr]. unfold setitem_none in Hc, Hr. rewrite Hin in Hc, Hr.
    cbn [columns rows] in Hc, Hr. rewrite length_app in Hc. cbn [length] in Hc.
    split; [lia|]. rewrite Hr, map_map. apply map_ext. intros [l r]. cbn [fst snd].
    by rewrite <- app_assoc.
Qed.



Lemma of_sheet_rows (sh : sheet) :
  rows (of_sheet sh) =
  imap (fun i raw => (i, take (length (header sh)) (raw ++ replicate (length (header sh)) NaN)))
       (body sh).
Proof. reflexivity. Qed.

(** What [prepare] returns, when it returns: five columns, the last three
    named for the metrics, and the rows of the sheet in their order under
    the labels 0, 1, 2, ... *)
Lemma prepare_returns (disk : Disk) (excel_file : string) (df : DataFrame) :
  prepare disk excel_file = Returns df →
  ∃ sh h0 h1,
    read_excel disk excel_file = inr sh ∧
    (length (header sh) ≤ 5)%nat ∧
    columns df = [h0; h1; "FDV"; "Liquidity"; "24h Volume"] ∧
    rows df = imap (fun i raw => (i, input_row (length (header sh)) raw)) (body sh).
Proof.
  unfold prepare, load_excel_data. intros Hp.
  destruct (read_excel disk excel_file) as [e|sh] eqn:Hread; [discriminate|].
  cbn [obind] in Hp. unfold ensure_columns in Hp.
  destruct (pad_columns _ _) as [df1| |] eqn:Hpad; [|discriminate..].
  cbn [obind] in Hp. unfold set_columns in Hp.
  destruct (Nat.eqb_spec (length (take 2 (columns df1) ++ ["FDV"; "Liquidity"; "24h Volume"]))
              (length (columns df1))) as [Hlen|]; [|discriminate].
  injection Hp as <-.
  apply pad_columns_returns in Hpad as [Hc Hr]. cbn [of_sheet columns] in Hc.
  rewrite length_app, length_take in Hlen. cbn [length] in Hlen.
  destruct (columns df1) as [|h0 [|h1 [|h2 [|h3 [|h4 [|h5 cs]]]]]] eqn:Hcols;
    cbn [length] in *; try lia.
  exists sh, h0, h1. split; [done|]. split; [lia|]. split; [done|]. cbn [rows].
  rewrite Hr, of_sheet_rows, map_is_fmap, fmap_imap. apply imap_ext.
  intros i raw _. reflexivity.
Qed.

Lemma input_row_length (w : nat) (raw : list cell) :
  (w ≤ 5)%nat → length (input_row w raw) = 5%nat.
Proof.
  intros Hw. unfold input_row.
  rewrite length_app, length_take, length_app, !length_replicate. lia.
Qed.

Lemma input_rows_labels (w : nat) (body : list (list cell)) :
  map fst (imap (fun i raw => (i, input_row w raw)) body) = seq 0 (length body).
Proof.
  rewrite map_is_fmap, fmap_imap.
  rewrite <- (list_fmap_id (seq 0 (length body))).
  apply (imap_seq body id 0%nat).
Qed.

Lemma input_rows_wide (w : nat) (body : list (list cell)) :
  (w ≤ 5)%nat →
  Forall (fun r : nat * list cell => (2 ≤ length r.2)%nat)
         (imap (fun i raw => (i, input_row w raw)) body).
Proof.
  intros Hw. apply Forall_lookup. intros i r Hr.
  rewrite list_lookup_imap in Hr.
  destruct (body !! i) as [raw|]; [|discriminate]. injection Hr as <-.
  cbn [snd]. rewrite input_row_length; lia.
Qed.


Section RunTheorems.
Context `{BS4} `{Regex}.

Lemma process_excel_file_prepare (disk : Disk) (http : Http)
    (as_completed : list future → list future) (excel_file : string) :
  process_excel_file disk http as_completed excel_file =
  obind (prepare disk excel_file) (fun df =>
  obind (make_tasks (iterrows df)) (fun tasks =>
  save disk excel_file (aggregate df (as_completed (map (submit http) tasks))))).
Proof.
  unfold process_excel_file, prepare.
  destruct (load_excel_data disk excel_file) as [df| |]; [|done..]. cbn [obind].
  destruct (ensure_columns df) as [df1| |]; [|done..]. cbn [obind].
  by destruct (set_columns df1 _).
Qed.

(** Once the table is prepared, the run no longer depends on what the
    requests do: it saves the table the loop ends with. *)
Lemma process_excel_file_prepared (disk : Disk) (http : Http)
    (as_completed : list future → list future) (excel_file : string) (df : DataFrame) :
  prepare disk excel_file = Returns df →
  ∃ tasks,
    process_excel_file disk http as_completed excel_file =
    save disk excel_file (aggregate df (as_completed (map (submit http) tasks))) ∧
    tasks = map task_of (rows df).
Proof.
  intros Hp. rewrite process_excel_file_prepare, Hp. cbn [obind].
  destruct (prepare_returns _ _ _ Hp) as (sh & h0 & h1 & _ & Hw & _ & Hrows).
  unfold iterrows. rewrite make_tasks_wide.
  - cbn [obind]. by eexists.
  - rewrite Hrows. by apply input_rows_wide.
Qed.

(** With the futures handed out in any order, the table that is saved is
    the one in which every row holds the metrics of its own task. *)
Lemma process_excel_file_any_order (disk : Disk) (http : Http)
    (as_completed : list future → list future) (excel_file : string) (df : DataFrame) :
  (∀ l, as_completed l ≡ₚ l) →
  prepare disk excel_file = Returns df →
  process_excel_file disk http as_completed excel_file =
  save disk excel_file (final_table http df).
Proof.
  intros Hperm Hp.
  destruct (process_excel_file_prepared disk http as_completed excel_file df Hp)
    as (tasks & -> & ->).
  f_equal. apply aggregate_any_order; [|apply Hperm].
  destruct (prepare_returns _ _ _ Hp) as (sh & h0 & h1 & _ & Hw & _ & Hrows).
  rewrite Hrows, input_rows_labels. apply NoDup_seq.
Qed.

Lemma save_returns (disk : Disk) (excel_file : string) (df df' : DataFrame) :
  save disk excel_file df = Returns df' → df' = df.
Proof.
  unfold save. destruct (to_excel disk _ df); [discriminate|].
  destruct (to_excel disk _ df); [discriminate|]. by intros [= <-].
Qed.




End RunTheorems.

(** ** A run *)



(** Outside the tables of at most five columns: the renaming of the
    columns raises for six columns, and the padding loop does not end when
    the name of the next column is taken. *)
Example process_excel_file_six_columns :
  @process_excel_file empty_soup no_script_matches (disk_with wide_sheet) pool_http id
    "test.xlsx" = Raises ValueError.
Proof. reflexivity. Qed.

Example process_excel_file_column_clash :
  @process_excel_file empty_soup no_script_matches (disk_with clashing_sheet) pool_http id
    "test.xlsx" = Diverges.
Proof. reflexivity. Qed.




(* ===================================================================== *)
(** * The loop over [as_completed] under the lock                        *)
(* ===================================================================== *)









(** Under the lock the row of the current turn can be half written. *)
Lemma half_written_under_lock :
  reachable one_row one_turn
    {| table := {| columns := columns one_row;
                   rows := [(0%nat, [Val "bsc"; Val "0xaaa"; Val "$1.2M"; PyNone; PyNone])] |};
       lock_held := true;
       at_position := Locked 0 [("Liquidity", Val "$500K"); ("24h Volume", Val "$45.3K")];
       remaining := [] |}.
Proof.
  unfold reachable, start, one_turn.
  eapply rtc_l; [apply step_acquire|]. eapply rtc_l; [apply step_assign|]. apply rtc_refl.
Qed.


(* ===================================================================== *)
(** * More on texts                                                      *)
(* ===================================================================== *)

Lemma rstrip_chars_idem (p : ascii → bool) (s : string) :
  rstrip_chars p (rstrip_chars p s) = rstrip_chars p s.
Proof.
  induction s as [|c s IH]; [done|].
  cbn [rstrip_chars]. destruct (rstrip_chars p s) as [|d r] eqn:E.
  - destruct (p c) eqn:Ec; [done|]. cbn [rstrip_chars]. by rewrite Ec.
  - cbn [rstrip_chars]. cbn [rstrip_chars] in IH. by rewrite IH.
Qed.

Lemma lstrip_chars_head (p : ascii → bool) (s : string) :
  match lstrip_chars p s with String c _ => p c = false | EmptyString => True end.
Proof.
  induction s as [|c s IH]; [done|].
  cbn [lstrip_chars]. by destruct (p c) eqn:Ec.
Qed.

Lemma lstrip_chars_id (p : ascii → bool) (s : string) :
  match s with String c _ => p c = false | EmptyString => True end →
  lstrip_chars p s = s.
Proof. destruct s as [|c s]; [done|]. cbn [lstrip_chars]. by intros ->. Qed.

Lemma rstrip_chars_head (p : ascii → bool) (s : string) :
  match s with String c _ => p c = false | EmptyString => True end →
  match rstrip_chars p s with String c _ => p c = false | EmptyString => True end.
Proof.
  destruct s as [|c s]; [done|]. intros Hc.
  cbn [rstrip_chars]. destruct (rstrip_chars p s); [by rewrite Hc|done].
Qed.

Lemma strip_idem (s : string) : strip (strip s) = strip s.
Proof.
  unfold strip.
  rewrite (lstrip_chars_id isspace (rstrip_chars isspace (lstrip_chars isspace s))).
  - apply rstrip_chars_idem.
  - apply rstrip_chars_head, lstrip_chars_head.
Qed.

Lemma all_chars_lstrip_sub (p q : ascii → bool) (s : string) :
  all_chars p s = true → all_chars p (lstrip_chars q s) = true.
Proof.
  induction s as [|c s IH]; [done|].
  cbn [lstrip_chars all_chars]. intros [Hc Hs]%andb_true_iff.
  destruct (q c); [by apply IH|]. cbn [all_chars]. by rewrite Hc, Hs.
Qed.

Lemma all_chars_rstrip_sub (p q : ascii → bool) (s : string) :
  all_chars p s = true → all_chars p (rstrip_chars q s) = true.
Proof.
  induction s as [|c s IH]; [done|].
  cbn [rstrip_chars all_chars]. intros [Hc Hs]%andb_true_iff.
  specialize (IH Hs). destruct (rstrip_chars q s) as [|d r].
  - destruct (q c); [done|]. cbn [all_chars]. by rewrite Hc.
  - change (all_chars p (String c (String d r))) with (p c && all_chars p (String d r)).
    by rewrite Hc, IH.
Qed.

Lemma all_chars_strip (p : ascii → bool) (s : string) :
  all_chars p s = true → all_chars p (strip s) = true.
Proof. intros Hs. by apply all_chars_rstrip_sub, all_chars_lstrip_sub. Qed.

(* ===================================================================== *)
(** * More on strategies 1 and 2                                         *)
(* ===================================================================== *)

Lemma search_Some {A} (m : string → option A) (s : string) (v : A) :
  search m s = Some v → ∃ t, m t = Some v.
Proof.
  induction s as [|c s IH]; cbn [search]; destruct (m _) eqn:E; intros Hs;
    try discriminate; try (injection Hs as <-; by eexists). by apply IH.
Qed.

Lemma match_marker_capture (ignorecase : bool) (s x rest : string) :
  match_marker ignorecase s = Some (x, rest) → all_chars (not_char "<") x = true.
Proof.
  unfold match_marker. destruct (literal ignorecase marker_head s) as [r1|]; [|done].
  destruct (span (not_char "<") r1) as [y r2] eqn:Es.
  apply span_inv in Es as (_ & Hy & _).
  destruct y; [done|]. destruct (literal ignorecase marker_tail r2); [|done].
  by intros [= <- _].
Qed.

Lemma value_after_gt_capture (s x : string) :
  value_after_gt s = Some x → all_chars (not_char "<") x = true.
Proof.
  unfold value_after_gt. destruct (span (not_char ">") s) as [a r].
  destruct r as [|c r1]; [done|].
  destruct (Ascii.eqb c ">") eqn:Ec.
  - apply Ascii.eqb_eq in Ec as ->.
    destruct (span (not_char "<") r1) as [y r2] eqn:Es.
    apply span_inv in Es as (_ & Hy & _).
    destruct y; [done|]. destruct r2 as [|d r2]; [done|].
    destruct (Ascii.eqb d "<") eqn:Ed.
    + apply Ascii.eqb_eq in Ed as ->. by intros [= <-].
    + intros Hx. exfalso. revert Hx Ed.
      destruct d as [[] [] [] [] [] [] [] []]; done.
  - intros Hx. exfalso. revert Hx Ec.
    destruct c as [[] [] [] [] [] [] [] []]; done.
Qed.

Lemma label_then_marker_capture (label s x : string) :
  label_then_marker label s = Some x → all_chars (not_char "<") x = true.
Proof.
  unfold label_then_marker. destruct (literal true label s) as [r|]; [|done].
  intros [t Ht]%search_Some.
  destruct (match_marker true t) as [[y rest]|] eqn:Em; [|done].
  injection Ht as <-. by eapply match_marker_capture.
Qed.

Lemma backup_capture (p : string → string → option string) (label s x : string) :
  p ∈ backup_patterns → p label s = Some x → all_chars (not_char "<") x = true.
Proof.
  unfold backup_patterns. rewrite !elem_of_cons, elem_of_nil.
  intros [->|[->|[->|[]]]].
  - unfold backup_1. destruct (literal true label s); [|done].
    apply value_after_gt_capture.
  - unfold backup_2. destruct (literal true _ s); [|done].
    apply value_after_gt_capture.
  - unfold backup_3. destruct (literal true _ s) as [r|]; [|done].
    destruct (span _ r) as [q r1]. destruct (contains_ci q (lower label)); [|done].
    destruct r1; [done|]. apply value_after_gt_capture.
Qed.

Lemma first_backup_capture (ps : list (string → string → option string))
    (html label v : string) :
  (∀ p, p ∈ ps → p ∈ backup_patterns) →
  first_backup ps html label = Some v →
  ∃ g, v = strip g ∧ all_chars (not_char "<") g = true.
Proof.
  induction ps as [|p ps IH]; [done|]. intros Hps. cbn [first_backup].
  destruct (search (p label) html) as [g|] eqn:Es.
  - intros [= <-]. exists g. split; [done|].
    apply search_Some in Es as [t Ht].
    eapply backup_capture; [|done]. apply Hps, list_elem_of_here.
  - apply IH. intros q Hq. by apply Hps, list_elem_of_further.
Qed.

Lemma marker_occurrences_capture (s : string) :
  Forall (fun x => all_chars (not_char "<") x = true) (marker_occurrences s).
Proof.
  induction s as [|c s IH]; [constructor|].
  cbn [marker_occurrences].
  destruct (match_marker false (String c s)) as [[x rest]|] eqn:Em; [|done].
  constructor; [|done]. by eapply match_marker_capture.
Qed.

(** X1.  Whatever the page, each of the three texts that strategy 1 returns
    is free of markup and of surrounding blanks: it holds no [<] and is left
    as it is by [strip]. *)
Theorem extract_all_values_by_pattern_fields_clean (html : string) :
  let m := extract_all_values_by_pattern html in
  Forall (fun x => strip x = x ∧ all_chars (not_char "<") x = true)
         [m.1.1; m.1.2; m.2].
Proof.
  cbv zeta. rewrite extract_all_values_by_pattern_occurrences.
  pose proof (marker_occurrences_capture html) as Hc.
  destruct (marker_occurrences html) as [|a [|b [|c [|d l]]]];
    try (repeat constructor; done).
  apply Forall_cons in Hc as [Ha Hc]. apply Forall_cons in Hc as [Hb Hc].
  apply Forall_cons in Hc as [Hc _].
  cbn [fst snd].
  repeat (constructor; [split; [apply strip_idem|by apply all_chars_strip]|]).
  constructor.
Qed.

(** X2.  A text that strategy 2 returns for a plain label is free of markup
    and of surrounding blanks as well. *)
Theorem extract_value_by_pattern_value_clean (html label v : string) :
  plain_label label = true →
  extract_value_by_pattern html label = Some v →
  strip v = v ∧ all_chars (not_char "<") v = true.
Proof.
  intros _. unfold extract_value_by_pattern.
  destruct (search (label_then_marker label) html) as [g|] eqn:Es.
  - intros [= <-]. split; [apply strip_idem|].
    apply search_Some in Es as [t Ht].
    apply all_chars_strip. by eapply label_then_marker_capture.
  - intros (g & -> & Hg)%first_backup_capture; [|done].
    split; [apply strip_idem|by apply all_chars_strip].
Qed.

Lemma extract_value_by_pattern_value_clean_witness :
  plain_label "FDV" = true ∧
  extract_value_by_pattern "<i id=FDV> $5 </i>" "FDV" = Some "$5" ∧
  strip "$5" = "$5" ∧ all_chars (not_char "<") "$5" = true.
Proof.
  split; [reflexivity|]. split; [reflexivity|].
  apply (extract_value_by_pattern_value_clean "<i id=FDV> $5 </i>" "FDV");
    reflexivity.
Defined.

Lemma lower_char_idem (c : ascii) : lower_char (lower_char c) = lower_char c.
Proof. destruct c as [[] [] [] [] [] [] [] []]; reflexivity. Qed.

Lemma literal_lower (p s : string) : literal true (lower p) s = literal true p s.
Proof.
  revert s. induction p as [|a p IH]; intros s; [done|].
  cbn [lower literal]. destruct s as [|b s]; [done|].
  unfold char_matches. rewrite lower_char_idem. by rewrite IH.
Qed.

Lemma contains_ci_lower (s p : string) : contains_ci s (lower p) = contains_ci s p.
Proof.
  induction s as [|c s IH]; cbn [contains_ci]; rewrite literal_lower; [done|].
  by rewrite IH.
Qed.

Lemma literal_app (ignorecase : bool) (a b s : string) :
  literal ignorecase (a +:+ b) s =
  match literal ignorecase a s with
  | Some r => literal ignorecase b r
  | None => None
  end.
Proof.
  revert s. induction a as [|x a IH]; intros s.
  - by rewrite app_empty_l.
  - rewrite app_cons. cbn [literal]. destruct s as [|y s]; [done|].
    destruct (char_matches ignorecase x y); [apply IH|done].
Qed.

Lemma literal_app_r (ignorecase : bool) (p q r x : string) :
  literal ignorecase p q = Some x → literal ignorecase p (q +:+ r) = Some (x +:+ r).
Proof.
  revert q. induction p as [|a p IH]; intros q.
  - cbn [literal]. by intros [= ->].
  - destruct q as [|b q]; [done|]. rewrite app_cons. cbn [literal].
    destruct (char_matches ignorecase a b); [apply IH|done].
Qed.

Lemma contains_ci_cons (c : ascii) (s sub : string) :
  contains_ci s sub = true → contains_ci (String c s) sub = true.
Proof. intros Hs. cbn [contains_ci]. by destruct (literal true sub (String c s)). Qed.

Lemma contains_ci_here (s sub r : string) :
  literal true sub s = Some r → contains_ci s sub = true.
Proof. intros Hl. destruct s; cbn [contains_ci]; by rewrite Hl. Qed.

Lemma contains_ci_after (p t r sub : string) :
  literal true p t = Some r → contains_ci r sub = true → contains_ci t sub = true.
Proof.
  revert t. induction p as [|a p IH]; intros t.
  - cbn [literal]. by intros [= ->].
  - destruct t as [|b t]; [done|]. cbn [literal].
    destruct (char_matches true a b); [|done].
    intros Hl Hr. apply contains_ci_cons. by apply IH.
Qed.

Lemma contains_ci_app_r (q r sub : string) :
  contains_ci q sub = true → contains_ci (q +:+ r) sub = true.
Proof.
  induction q as [|c q IH].
  - cbn [contains_ci]. destruct (literal true sub "") as [x|] eqn:El; [|done].
    intros _. eapply contains_ci_here. by apply (literal_app_r true sub "" r x).
  - cbn [contains_ci]. destruct (literal true sub (String c q)) as [x|] eqn:El.
    + intros _. eapply contains_ci_here. by apply literal_app_r.
    + intros Hq. rewrite app_cons. by apply contains_ci_cons, IH.
Qed.

Lemma search_absent {A} (m : string → option A) (label s : string) :
  (∀ t, contains_ci t label = false → m t = None) →
  contains_ci s label = false → search m s = None.
Proof.
  intros Hm. induction s as [|c s IH]; intros Hs.
  - cbn [search]. by rewrite (Hm "" Hs).
  - cbn [search]. rewrite (Hm _ Hs).
    apply IH. destruct (contains_ci s label) eqn:E; [|done].
    by rewrite (contains_ci_cons c s label E) in Hs.
Qed.

Lemma backup_needs_label (p : string → string → option string) (label t : string) :
  p ∈ backup_patterns → contains_ci t label = false → p label t = None.
Proof.
  unfold backup_patterns. rewrite !elem_of_cons, elem_of_nil.
  intros [->|[->|[->|[]]]] Ht.
  - unfold backup_1. destruct (literal true label t) as [r|] eqn:El; [|done].
    by rewrite (contains_ci_here _ _ _ El) in Ht.
  - unfold backup_2, dq. rewrite app_cons, app_empty_l.
    destruct t as [|b t]; [done|]. cbn [literal].
    destruct (char_matches true _ b); [|done].
    rewrite literal_app. destruct (literal true label t) as [r|] eqn:El; [|done].
    by rewrite (contains_ci_cons b _ _ (contains_ci_here _ _ _ El)) in Ht.
  - unfold backup_3. destruct (literal true _ t) as [r|] eqn:El; [|done].
    destruct (span _ r) as [q r1] eqn:Es. apply span_inv in Es as (-> & _ & _).
    rewrite contains_ci_lower.
    destruct (contains_ci q label) eqn:Eq; [|done].
    by rewrite (contains_ci_after _ _ _ _ El (contains_ci_app_r q r1 label Eq)) in Ht.
Qed.

Lemma first_backup_absent (ps : list (string → string → option string))
    (html label : string) :
  (∀ p, p ∈ ps → p ∈ backup_patterns) →
  contains_ci html label = false → first_backup ps html label = None.
Proof.
  intros Hps Hl. induction ps as [|p ps IH]; [done|]. cbn [first_backup].
  rewrite (search_absent (p label) label html); [|by intros t; apply backup_needs_label,
    Hps, list_elem_of_here|done].
  apply IH. intros q Hq. by apply Hps, list_elem_of_further.
Qed.

(** X3.  Strategy 2 finds nothing for a plain label that the page does not
    contain, in whatever case: all four of its patterns begin with, or
    require, the label. *)
Theorem extract_value_by_pattern_needs_label (html label : string) :
  plain_label label = true →
  contains_ci html label = false → extract_value_by_pattern html label = None.
Proof.
  intros _ Hl. unfold extract_value_by_pattern.
  rewrite (search_absent (label_then_marker label) label html); [|intros t Ht|done].
  - by apply first_backup_absent.
  - unfold label_then_marker. destruct (literal true label t) as [r|] eqn:El; [|done].
    by rewrite (contains_ci_here _ _ _ El) in Ht.
Qed.

Lemma extract_value_by_pattern_needs_label_witness :
  plain_label "FDV" = true ∧
  contains_ci three_metrics_page "FDV" = false ∧
  extract_value_by_pattern three_metrics_page "FDV" = None.
Proof.
  split; [reflexivity|]. split; [reflexivity|].
  apply (extract_value_by_pattern_needs_label three_metrics_page "FDV"); reflexivity.
Defined.

(* ===================================================================== *)
(** * More on strategy 3                                                 *)
(* ===================================================================== *)

Lemma app_empty_r_s (a : string) : a +:+ "" = a.
Proof. induction a as [|c a IH]; [done|]. by rewrite app_cons, IH. Qed.

Lemma number_prefix_eq (s : string) :
  number_prefix s =
  let '(d, r) := span is_digit s in
  if truthy d then
    Some (span is_digit (match r with
                         | String c r' => if Ascii.eqb c "." then r' else r
                         | EmptyString => r
                         end)).2
  else None.
Proof.
  unfold number_prefix. destruct (span is_digit s) as [d r].
  destruct d; [done|]. destruct r as [|c r']; [done|].
  destruct c as [[] [] [] [] [] [] [] []]; reflexivity.
Qed.

Lemma exponent_eq (s : string) :
  exponent s =
  let s1 := match s with
            | String c s' => if Ascii.eqb c "+" || Ascii.eqb c "-" then s' else s
            | EmptyString => s
            end in
  let '(d, r) := span is_digit s1 in truthy d && negb (truthy r).
Proof.
  unfold exponent. destruct s as [|c s']; [done|].
  destruct c as [[] [] [] [] [] [] [] []]; reflexivity.
Qed.

Lemma unit_letter (c : ascii) :
  existsb (fun k => char_matches true k c) ["K"; "M"; "B"]%char =
  bool_decide (String c "" ∈ ["K"; "M"; "B"; "k"; "m"; "b"]).
Proof. destruct c as [[] [] [] [] [] [] [] []]; vm_compute; reflexivity. Qed.

Lemma e_letter (c : ascii) :
  char_matches true "e" c = bool_decide (String c "" ∈ ["e"; "E"]).
Proof. destruct c as [[] [] [] [] [] [] [] []]; vm_compute; reflexivity. Qed.

Lemma digit_not_mark (c : ascii) :
  is_digit c = true →
  Ascii.eqb c "+" = false ∧ Ascii.eqb c "-" = false ∧ Ascii.eqb c "." = false.
Proof. destruct c as [[] [] [] [] [] [] [] []]; vm_compute; done. Qed.

Lemma span_all (p : ascii → bool) (d : string) :
  all_chars p d = true → span p d = (d, "").
Proof.
  intros Hd. rewrite <- (app_empty_r_s d) at 1. by apply span_app.
Qed.

Lemma span_none (p : ascii → bool) (r : string) :
  match r with String c _ => p c = false | EmptyString => True end →
  span p r = ("", r).
Proof. intros Hr. by apply (span_app p "" r). Qed.

Lemma number_prefix_inv (s rest : string) :
  number_prefix s = Some rest →
  ∃ d f, s = d +:+ f +:+ rest ∧ d ≠ "" ∧ digits d = true ∧ fraction f.
Proof.
  rewrite number_prefix_eq. destruct (span is_digit s) as [d r] eqn:E1.
  apply span_inv in E1 as (-> & Hd & Hr).
  destruct d as [|a d]; [done|]. cbn [truthy]. intros [= <-].
  destruct r as [|c r'].
  - exists (String a d), "". cbn [span snd]. split; [done|]. split; [done|].
    split; [done|]. by left.
  - destruct (Ascii.eqb c ".") eqn:Ec.
    + apply Ascii.eqb_eq in Ec as ->.
      destruct (span is_digit r') as [d2 r2] eqn:E2.
      apply span_inv in E2 as (-> & Hd2 & _).
      exists (String a d), ("." +:+ d2). cbn [snd].
      split; [by rewrite app_assoc_s, (app_cons "." "" (d2 +:+ r2)), app_empty_l|].
      split; [done|]. split; [done|]. right. by exists d2.
    + rewrite (span_none is_digit (String c r') Hr). cbn [snd].
      exists (String a d), "". rewrite app_empty_l.
      split; [done|]. split; [done|]. split; [done|]. by left.
Qed.

Lemma number_prefix_intro (d f u : string) :
  d ≠ "" → digits d = true → fraction f →
  match u with
  | String c _ => is_digit c = false ∧ Ascii.eqb c "." = false
  | EmptyString => True
  end →
  number_prefix (d +:+ f +:+ u) = Some u.
Proof.
  intros Hne Hd Hf Hu. rewrite number_prefix_eq.
  assert (Hu1 : match u with String c _ => is_digit c = false | EmptyString => True end)
    by (destruct u; [done|apply Hu]).
  destruct Hf as [->|(d2 & -> & Hd2)].
  - rewrite app_empty_l, (span_app is_digit d u Hd Hu1).
    destruct d; [done|]. cbn [truthy]. f_equal.
    destruct u as [|c u]; [done|]. destruct Hu as [_ ->].
    by rewrite (span_none is_digit (String c u) Hu1).
  - rewrite app_assoc_s, (app_cons "." "" (d2 +:+ u)), app_empty_l.
    rewrite (span_app is_digit d (String "." (d2 +:+ u)) Hd); [|done].
    destruct d; [done|]. cbn [truthy]. f_equal.
    change (Ascii.eqb "." ".") with true. cbv iota.
    by rewrite (span_app is_digit d2 u Hd2 Hu1).
Qed.

Lemma exponent_iff (s : string) :
  exponent s = true ↔
  ∃ sign d, s = sign +:+ d ∧ sign ∈ [""; "+"; "-"] ∧ d ≠ "" ∧ digits d = true.
Proof.
  rewrite exponent_eq. cbv zeta. split.
  - destruct (span is_digit _) as [d r] eqn:Es.
    apply span_inv in Es as (Hs & Hd & _).
    intros [Hd1 Hr]%andb_true_iff. destruct r; [|done].
    rewrite app_empty_r_s in Hs.
    assert (Hne : d ≠ "") by (by destruct d).
    destruct s as [|c s'].
    + exists "", d. rewrite app_empty_l. set_solver.
    + destruct (Ascii.eqb c "+") eqn:E1; [|destruct (Ascii.eqb c "-") eqn:E2].
      * apply Ascii.eqb_eq in E1 as ->. cbn [orb] in Hs. subst s'.
        exists "+", d. split; [done|]. set_solver.
      * apply Ascii.eqb_eq in E2 as ->. cbn [orb] in Hs. subst s'.
        exists "-", d. split; [done|]. set_solver.
      * cbn [orb] in Hs. exists "", d. rewrite app_empty_l. set_solver.
  - intros (sign & d & -> & Hsign & Hne & Hd).
    assert (Hspan : span is_digit d = (d, "")) by by apply span_all.
    rewrite !elem_of_cons, elem_of_nil in Hsign.
    destruct Hsign as [->|[->|[->|[]]]].
    + rewrite app_empty_l. destruct d as [|c d]; [done|].
      assert (is_digit c = true) as Hc
        by (cbn [digits all_chars] in Hd; by apply andb_true_iff in Hd as [? _]).
      apply digit_not_mark in Hc as (-> & -> & _). cbn [orb].
      by rewrite Hspan.
    + rewrite (app_cons "+" "" d), app_empty_l.
      change (Ascii.eqb "+" "+") with true. cbn [orb]. cbv iota.
      rewrite Hspan. by destruct d.
    + rewrite (app_cons "-" "" d), app_empty_l.
      change (Ascii.eqb "-" "+" || Ascii.eqb "-" "-") with true. cbv iota.
      rewrite Hspan. by destruct d.
Qed.

Lemma magnitude_head (u : string) :
  magnitude u →
  match u with
  | String c _ => is_digit c = false ∧ Ascii.eqb c "." = false
  | EmptyString => True
  end.
Proof.
  intros [->|[Hu|(e & sign & d & -> & He & _)]]; [done| |].
  - rewrite !elem_of_cons, elem_of_nil in Hu.
    destruct Hu as [->|[->|[->|[->|[->|[->|[]]]]]]]; done.
  - rewrite !elem_of_cons, elem_of_nil in He.
    destruct He as [->|[->|[]]]; rewrite app_cons; done.
Qed.

(** X4.  [is_numeric_value] accepts exactly the texts that, once the
    characters [$], [,], [%] and blanks are taken out, are a decimal number
    with an optional fraction, followed by nothing, by one of K, M, B in
    either case, or by an exponent. *)
Theorem is_numeric_value_shape (text : string) :
  is_numeric_value text = true ↔ numeric_text (clean text).
Proof.
  unfold is_numeric_value. cbv zeta. split.
  - destruct (number_prefix (clean text)) as [rest|] eqn:En; [|done].
    apply number_prefix_inv in En as (d & f & -> & Hne & Hd & Hf).
    intros Hrest. exists d, f, rest. split; [done|]. split; [done|].
    split; [done|]. split; [done|].
    destruct rest as [|c [|c' r']].
    + by left.
    + right; left. rewrite unit_letter in Hrest. by apply bool_decide_eq_true in Hrest.
    + right; right. apply andb_true_iff in Hrest as [He Hx].
      rewrite e_letter in He. apply bool_decide_eq_true in He.
      apply exponent_iff in Hx as (sign & d3 & Hs & Hsign & Hne3 & Hd3).
      exists (String c ""), sign, d3. rewrite app_cons, app_empty_l, <- Hs. done.
  - intros (d & f & u & -> & Hne & Hd & Hf & Hu).
    rewrite (number_prefix_intro d f u Hne Hd Hf (magnitude_head u Hu)).
    destruct Hu as [->|[Hu|(e & sign & d3 & -> & He & Hsign & Hne3 & Hd3)]]; [done| |].
    + rewrite !elem_of_cons, elem_of_nil in Hu.
      destruct Hu as [->|[->|[->|[->|[->|[->|[]]]]]]]; reflexivity.
    + assert (Hx : exponent (sign +:+ d3) = true)
        by (apply exponent_iff; by exists sign, d3).
      assert (Hlen : sign +:+ d3 ≠ "").
      { intros E. apply (f_equal String.length) in E. rewrite length_app_s in E.
        destruct d3; [done|]. rewrite length_cons in E. cbn in E. lia. }
      rewrite !elem_of_cons, elem_of_nil in He.
      destruct (sign +:+ d3) as [|x y] eqn:Esd; [done|].
      destruct He as [->|[->|[]]]; rewrite app_cons, app_empty_l; cbv iota beta;
        rewrite Hx; reflexivity.
Qed.

Section ClassSearch.
Context `{BS4} `{Regex}.

Lemma head_filter_app {A} (P : A → Prop) `{∀ x, Decision (P x)} (l1 l2 : list A) :
  head (filter P (l1 ++ l2)) =
  match head (filter P l1) with
  | Some x => Some x
  | None => head (filter P l2)
  end.
Proof. rewrite filter_app. by destruct (filter P l1). Qed.

Lemma head_filter_first {A} (P : A → Prop) `{∀ x, Decision (P x)} (l : list A) :
  match head (filter P l) with
  | Some x => ∃ before after, l = before ++ x :: after ∧ P x ∧ Forall (fun t => ¬ P t) before
  | None => Forall (fun t => ¬ P t) l
  end.
Proof.
  induction l as [|a l IH]; [constructor|].
  rewrite filter_cons. destruct (decide (P a)) as [Ha|Ha].
  - cbn [head]. by exists [], l.
  - destruct (head (filter P l)) as [x|].
    + destruct IH as (before & after & -> & Hx & Hb).
      exists (a :: before), after. split; [done|]. split; [done|]. by constructor.
    + by constructor.
Qed.

Lemma extract_value_by_class_head (sp : soup) (class_keywords : list string) :
  extract_value_by_class sp class_keywords =
  head (filter acceptable (candidates sp class_keywords)).
Proof.
  induction class_keywords as [|keyword rest IH]; [done|].
  cbn [extract_value_by_class candidates flat_map].
  rewrite !head_filter_app. fold (candidates sp rest). rewrite <- IH.
  unfold first_numeric, acceptable.
  by destruct (head (filter _ (map get_text (find_all_class sp keyword)))).
Qed.

(** X5.  Strategy 3 returns the first acceptable text among its candidates:
    a text that is not empty and that [is_numeric_value] accepts, with no
    such text before it; it returns nothing only where no candidate is
    acceptable. *)
Theorem extract_value_by_class_first_acceptable (sp : soup)
    (class_keywords : list string) :
  match extract_value_by_class sp class_keywords with
  | Some text =>
      text ≠ "" ∧ is_numeric_value text = true ∧
      ∃ before after,
        candidates sp class_keywords = before ++ text :: after ∧
        Forall (fun t => t = "" ∨ is_numeric_value t = false) before
  | None =>
      Forall (fun t => t = "" ∨ is_numeric_value t = false)
             (candidates sp class_keywords)
  end.
Proof.
  assert (Hno : ∀ t, ¬ acceptable t → t = "" ∨ is_numeric_value t = false).
  { intros t Ht. unfold acceptable in Ht. destruct t as [|c t]; [by left|right].
    cbn [truthy andb] in Ht. by destruct (is_numeric_value (String c t)). }
  rewrite extract_value_by_class_head.
  pose proof (head_filter_first acceptable (candidates sp class_keywords)) as Hf.
  destruct (head (filter acceptable (candidates sp class_keywords))) as [text|].
  - destruct Hf as (before & after & Hc & Hx & Hb).
    unfold acceptable in Hx. apply andb_true_iff in Hx as [Ht Hn].
    split; [by destruct text|]. split; [done|].
    exists before, after. split; [done|].
    eapply Forall_impl; [exact Hb|]. exact Hno.
  - eapply Forall_impl; [exact Hf|]. exact Hno.
Qed.

End ClassSearch.

(* ===================================================================== *)
(** * More on the pipeline and the worker                                *)
(* ===================================================================== *)

Lemma or_else_nonempty (o : option string) : or_else o "0" ≠ "".
Proof. destruct o as [[|c s]|]; done. Qed.

Lemma coerced_triple {E} (x : option string * option string * option string) :
  ∃ a b c,
    value (E:=E) (let '(fdv, liquidity, volume_24h) := x in
                  ret (or_else fdv "0", or_else liquidity "0", or_else volume_24h "0")) =
    (or_else a "0", or_else b "0", or_else c "0").
Proof. destruct x as [[a b] c]. by exists a, b, c. Qed.

Section Answers.
Context `{BS4} `{Regex}.

Lemma parse_html_data_or_else (html : string) :
  ∃ a b c, value (parse_html_data html) = (or_else a "0", or_else b "0", or_else c "0").
Proof.
  unfold parse_html_data. destruct (BeautifulSoup html) as [sp|].
  - rewrite value_bind. cbn [emit value fst].
    destruct (extract_all_values_by_pattern html) as [[f l] v].
    destruct (_ && _).
    + rewrite !value_bind.
      apply coerced_triple.
    + by exists (Some f), (Some l), (Some v).
  - by exists None, None, None.
Qed.

(** X6.  Whatever the page and whatever the parser finds in it,
    [parse_html_data] returns three texts none of which is empty. *)
Theorem parse_html_data_fields_nonempty (html : string) :
  let m := value (parse_html_data html) in
  m.1.1 ≠ "" ∧ m.1.2 ≠ "" ∧ m.2 ≠ "".
Proof.
  cbv zeta. destruct (parse_html_data_or_else html) as (a & b & c & ->).
  cbn [fst snd]. auto using or_else_nonempty.
Qed.

Lemma fetch_token_data_nonempty (http : Http) (network address : string) (m : metrics) :
  fetch_token_data http network address = inr m →
  m.1.1 ≠ "" ∧ m.1.2 ≠ "" ∧ m.2 ≠ "".
Proof.
  unfold fetch_token_data. destruct (http _) as [e|response].
  - destruct (is_request_exception e); [|done]. by intros [= <-].
  - destruct (status response =? 200).
    + intros [= <-]. destruct (parse_html_data_or_else (text response)) as (a & b & c & ->).
      cbn [fst snd]. auto using or_else_nonempty.
    + destruct (status response =? 404); by intros [= <-].
Qed.

(** X7.  The worker never fails and never leaves a gap: whatever the
    server does, raise included, it hands back the index it was given with
    three texts none of which is empty. *)
Theorem process_single_row_always_answers (http : Http) (index : nat)
    (network contract_address : cell) :
  let r := process_single_row http (index, network, contract_address) in
  r.1 = index ∧ r.2.1.1 ≠ "" ∧ r.2.1.2 ≠ "" ∧ r.2.2 ≠ "".
Proof.
  cbv zeta. unfold process_single_row.
  destruct (_ || _); [done|].
  destruct (fetch_token_data http _ _) as [e|m] eqn:Ef; [done|].
  split; [done|]. by eapply fetch_token_data_nonempty.
Qed.

End Answers.

(* ===================================================================== *)
(** * More on the run over the spreadsheet                               *)
(* ===================================================================== *)

Lemma fold_left_pointwise {A B} (f g : A → B → A) (l : list B) (a : A) :
  (∀ x y, f x y = g x y) → fold_left f l a = fold_left g l a.
Proof.
  intros Hfg. revert a. induction l as [|y l IH]; intros a; [done|].
  cbn [fold_left]. by rewrite Hfg, IH.
Qed.

(** Rows written one after the other, each under its own label: every row
    gets its own assignments and no others. *)
Lemma sequential_writes (W : nat * list cell → list (string * cell))
    (cols : list string) (rs pre : list (nat * list cell)) :
  NoDup (map fst (pre ++ rs)) →
  fold_left (fun d r => apply_writes d r.1 (W r)) rs
            {| columns := cols; rows := pre ++ rs |} =
  {| columns := cols;
     rows := pre ++ map (fun r => (r.1, write_cells cols (W r) r.2)) rs |}.
Proof.
  revert pre. induction rs as [|r rs IH]; intros pre Hnd; [done|].
  cbn [fold_left map]. rewrite apply_writes_present.
  2:{ unfold has_label. cbn [rows]. apply existsb_exists. exists r.
      split; [|apply Nat.eqb_refl]. apply in_or_app. right. by left. }
  cbn [columns rows].
  rewrite map_app in Hnd. apply NoDup_app in Hnd as (Hpre & Hdisj & Hrs).
  cbn [map] in Hdisj, Hrs. apply NoDup_cons in Hrs as [Hr Hrs].
  assert (Hkeep : ∀ l : list (nat * list cell), r.1 ∉ map fst l →
            map (upd_row r.1 (write_cells cols (W r))) l = l).
  { intros l Hl. rewrite <- (map_id l) at 2. apply map_ext_in. intros x Hx.
    unfold upd_row. destruct (Nat.eqb_spec x.1 r.1) as [E|]; [|done].
    exfalso. apply Hl. rewrite <- E. apply list_elem_of_In, in_map, Hx. }
  rewrite map_app. cbn [map]. rewrite (Hkeep pre), (Hkeep rs); [|done|].
  2:{ intros Hin. apply (Hdisj r.1 Hin). left. }
  unfold upd_row at 1. rewrite Nat.eqb_refl.
  rewrite (cons_middle _ pre rs), app_assoc. rewrite IH.
  - by rewrite <- app_assoc.
  - rewrite <- app_assoc. cbn [app]. rewrite map_app. cbn [map fst].
    apply NoDup_app. split; [done|]. split; [|by apply NoDup_cons].
    intros x Hx Hx'. by apply (Hdisj x Hx).
Qed.

Lemma pad_columns_names (k : nat) (df df' : DataFrame) :
  pad_columns k df = Returns df' →
  columns df' = columns df ++ map column_name (seq (length (columns df)) k).
Proof.
  revert df. induction k as [|k IH]; intros df Hp; cbn [pad_columns] in Hp.
  - injection Hp as <-. cbn. by rewrite app_nil_r.
  - destruct (bool_decide _) eqn:Hin; [discriminate|].
    apply IH in Hp. unfold setitem_none in Hp. rewrite Hin in Hp.
    cbn [columns] in Hp. rewrite length_app in Hp. cbn [length] in Hp.
    rewrite Hp, <- app_assoc. cbn [seq map app]. f_equal.
    replace (length (columns df) + 1)%nat with (S (length (columns df))) by lia.
    reflexivity.
Qed.

(** The names of the columns once the table is prepared: the first two of
    the header, filled up with the names that the padding gives, and the
    names of the three metrics. *)
Lemma prepare_columns (disk : Disk) (excel_file : string) (df : DataFrame) (sh : sheet) :
  read_excel disk excel_file = inr sh →
  prepare disk excel_file = Returns df →
  columns df =
  take 2 (header sh ++ map column_name (seq (length (header sh)) (5 - length (header sh))))
  ++ metric_names.
Proof.
  unfold prepare, load_excel_data. intros -> Hp. cbn [obind] in Hp.
  unfold ensure_columns in Hp.
  destruct (pad_columns _ _) as [df1| |] eqn:Hpad; [|discriminate..].
  cbn [obind] in Hp. unfold set_columns in Hp.
  destruct (Nat.eqb _ _); [|discriminate]. injection Hp as <-.
  apply pad_columns_names in Hpad. cbn [of_sheet columns] in Hpad.
  cbn [columns]. by rewrite Hpad.
Qed.

(** A row of five cells after the three assignments: the metric cells hold
    the metrics, and a cell before them is kept unless its column has the
    name of a metric. *)
Lemma metric_cells_row (h0 h1 : string) (m : metrics) (cells : list cell) :
  length cells = 5%nat →
  ∃ c0 c1,
    write_cells [h0; h1; "FDV"; "Liquidity"; "24h Volume"] (metric_cells m) cells =
    [c0; c1; Val m.1.1; Val m.1.2; Val m.2] ∧
    (h0 ∉ metric_names → cells !! 0%nat = Some c0) ∧
    (h1 ∉ metric_names → cells !! 1%nat = Some c1).
Proof.
  intros Hlen.
  destruct cells as [|c0 [|c1 [|c2 [|c3 [|c4 [|c5 cs]]]]]]; try discriminate.
  eexists _, _. split; [reflexivity|].
  unfold metric_names. rewrite !not_elem_of_cons.
  split; intros (H1 & H2 & H3 & _); cbn;
    rewrite !bool_decide_eq_false_2 by congruence; reflexivity.
Qed.

Section RunShape.
Context `{BS4} `{Regex}.

Lemma process_single_row_nonempty (http : Http) (t : task) :
  let m := (process_single_row http t).2 in m.1.1 ≠ "" ∧ m.1.2 ≠ "" ∧ m.2 ≠ "".
Proof.
  cbv zeta. destruct t as [[index network] address]. unfold process_single_row.
  destruct (_ || _); [done|].
  destruct (fetch_token_data http _ _) as [e|m] eqn:Ef; [done|].
  by eapply fetch_token_data_nonempty.
Qed.

Lemma process_single_row_blank (http : Http) (index : nat) (network address : cell) :
  blank network || blank address = true →
  process_single_row http (index, network, address) = (index, zeros).
Proof.
  unfold blank, process_single_row. intros Hb.
  destruct (isna network), (isna address), (truthy (strip (str network))),
    (truthy (strip (str address))); done.
Qed.

Lemma final_table_row (http : Http) (df0 : DataFrame) (sh : sheet) (i : nat)
    (raw : list cell) :
  rows df0 = imap (fun i raw => (i, input_row (length (header sh)) raw)) (body sh) →
  body sh !! i = Some raw →
  rows (final_table http df0) !! i =
  Some (i, write_cells (columns df0)
             (metric_cells (metrics_of http (i, input_row (length (header sh)) raw)))
             (input_row (length (header sh)) raw)).
Proof.
  intros Hrows Hraw. unfold final_table. cbn [rows].
  by rewrite map_is_fmap, list_lookup_fmap, Hrows, list_lookup_imap, Hraw.
Qed.

(** What a run that returns has saved, row by row. *)
Lemma process_excel_file_saved (disk : Disk) (http : Http)
    (as_completed : list future → list future) (excel_file : string) (df : DataFrame) :
  (∀ l, as_completed l ≡ₚ l) →
  process_excel_file disk http as_completed excel_file = Returns df →
  ∃ sh h0 h1,
    read_excel disk excel_file = inr sh ∧
    (length (header sh) ≤ 5)%nat ∧
    take 2 (header sh ++
            map column_name (seq (length (header sh)) (5 - length (header sh)))) =
      [h0; h1] ∧
    columns df = [h0; h1; "FDV"; "Liquidity"; "24h Volume"] ∧
    length (rows df) = length (body sh) ∧
    ∀ i raw, body sh !! i = Some raw →
      rows df !! i =
      Some (i, write_cells [h0; h1; "FDV"; "Liquidity"; "24h Volume"]
                 (metric_cells (metrics_of http (i, input_row (length (header sh)) raw)))
                 (input_row (length (header sh)) raw)).
Proof.
  intros Hperm Hrun.
  destruct (prepare disk excel_file) as [df0| |] eqn:Hp;
    [|by rewrite process_excel_file_prepare, Hp in Hrun..].
  rewrite (process_excel_file_any_order disk http _ excel_file df0 Hperm Hp) in Hrun.
  apply save_returns in Hrun as ->.
  destruct (prepare_returns _ _ _ Hp) as (sh & h0 & h1 & Hread & Hw & Hcols & Hrows).
  pose proof (prepare_columns _ _ _ _ Hread Hp) as Hnames.
  rewrite Hcols in Hnames. change [h0; h1; "FDV"; "Liquidity"; "24h Volume"]
    with ([h0; h1] ++ metric_names) in Hnames.
  apply app_inj_2 in Hnames as [Hnames _]; [|done].
  exists sh, h0, h1. split; [done|]. split; [done|]. split; [done|].
  split; [done|]. split.
  { unfold final_table. cbn [rows]. by rewrite length_map, Hrows, length_imap. }
  intros i raw Hraw. rewrite <- Hcols. by apply final_table_row.
Qed.

(** X8.  In the table that a run saves, every row of the sheet has its row,
    in order and under its own label, of exactly five cells; the three
    metric cells hold texts, none of them empty; and a row whose network or
    address cell is missing or blank holds "0" in all three, whatever the
    server would answer. *)
Theorem process_excel_file_every_row_answered (disk : Disk) (http : Http)
    (as_completed : list future → list future) (excel_file : string) (df : DataFrame) :
  (∀ l, as_completed l ≡ₚ l) →
  process_excel_file disk http as_completed excel_file = Returns df →
  ∃ sh, read_excel disk excel_file = inr sh ∧
    length (rows df) = length (body sh) ∧
    ∀ i raw, body sh !! i = Some raw →
      ∃ c0 c1 fdv liquidity volume_24h,
        rows df !! i = Some (i, [c0; c1; Val fdv; Val liquidity; Val volume_24h]) ∧
        fdv ≠ "" ∧ liquidity ≠ "" ∧ volume_24h ≠ "" ∧
        ∀ network address,
          input_row (length (header sh)) raw !! 0%nat = Some network →
          input_row (length (header sh)) raw !! 1%nat = Some address →
          blank network || blank address = true →
          (fdv, liquidity, volume_24h) = ("0", "0", "0").
Proof.
  intros Hperm Hrun.
  destruct (process_excel_file_saved _ _ _ _ _ Hperm Hrun)
    as (sh & h0 & h1 & Hread & Hw & _ & _ & Hlen & Hrow).
  exists sh. split; [done|]. split; [done|]. intros i raw Hraw.
  set (row := input_row (length (header sh)) raw).
  set (m := metrics_of http (i, row)).
  destruct (metric_cells_row h0 h1 m row (input_row_length _ raw Hw))
    as (c0 & c1 & Hcells & _).
  exists c0, c1, m.1.1, m.1.2, m.2.
  split; [by rewrite (Hrow i raw Hraw), <- Hcells|].
  destruct (process_single_row_nonempty http (task_of (i, row))) as (Hf & Hl & Hv).
  split; [done|]. split; [done|]. split; [done|].
  intros network address Hn Ha Hblank.
  unfold m, metrics_of, task_of. cbn [fst snd]. rewrite Hn, Ha. cbn [default id].
  by rewrite (process_single_row_blank http i network address Hblank).
Qed.

(** X9.  The run keeps what it was given: the saved table has the first two
    column names of the sheet (of the padded sheet, where it was narrower)
    before the three metric names, and in every row the cell under a name
    that is not a metric name is the cell of the sheet. *)
Theorem process_excel_file_keeps_inputs (disk : Disk) (http : Http)
    (as_completed : list future → list future) (excel_file : string) (df : DataFrame) :
  (∀ l, as_completed l ≡ₚ l) →
  process_excel_file disk http as_completed excel_file = Returns df →
  ∃ sh h0 h1, read_excel disk excel_file = inr sh ∧
    take 2 (header sh ++
            map column_name (seq (length (header sh)) (5 - length (header sh)))) =
      [h0; h1] ∧
    columns df = [h0; h1; "FDV"; "Liquidity"; "24h Volume"] ∧
    ∀ i raw, body sh !! i = Some raw →
      ∃ cells, rows df !! i = Some (i, cells) ∧
        (h0 ∉ metric_names → cells !! 0%nat = input_row (length (header sh)) raw !! 0%nat) ∧
        (h1 ∉ metric_names → cells !! 1%nat = input_row (length (header sh)) raw !! 1%nat).
Proof.
  intros Hperm Hrun.
  destruct (process_excel_file_saved _ _ _ _ _ Hperm Hrun)
    as (sh & h0 & h1 & Hread & Hw & Hnames & Hcols & _ & Hrow).
  exists sh, h0, h1. split; [done|]. split; [done|]. split; [done|].
  intros i raw Hraw. eexists. split; [by apply Hrow|].
  set (row := input_row (length (header sh)) raw).
  destruct (metric_cells_row h0 h1 (metrics_of http (i, row)) row
              (input_row_length _ raw Hw)) as (c0 & c1 & -> & Hc0 & Hc1).
  split; intros Hh; [by rewrite (Hc0 Hh)|by rewrite (Hc1 Hh)].
Qed.

End RunShape.

(** ** The single-threaded run *)

Section SingleThread.
Context `{BS4} `{Regex}.

Lemma process_excel_file_single_thread_prepare (disk : Disk) (http : Http)
    (excel_file : string) :
  process_excel_file_single_thread disk http excel_file =
  obind (prepare disk excel_file) (fun df =>
  save disk excel_file (single_thread_loop http df)).
Proof.
  unfold process_excel_file_single_thread, prepare.
  destruct (load_excel_data disk excel_file) as [df| |]; [|done..]. cbn [obind].
  destruct (ensure_columns df) as [df1| |]; [|done..]. cbn [obind].
  by destruct (set_columns df1 _).
Qed.

Lemma single_thread_loop_rows (http : Http) (df : DataFrame) :
  NoDup (map fst (rows df)) →
  single_thread_loop http df =
  {| columns := columns df;
     rows := map (fun r => (r.1, write_cells (columns df)
                                   (metric_cells (single_thread_row http r.2)) r.2))
                 (rows df) |}.
Proof.
  intros Hnd. unfold single_thread_loop, iterrows.
  rewrite (fold_left_pointwise _
             (fun d r => apply_writes d r.1 (metric_cells (single_thread_row http r.2)))).
  - destruct df as [cols rs]. exact (sequential_writes _ cols rs [] Hnd).
  - intros d r. by destruct (single_thread_row http r.2) as [[a b] c].
Qed.

Lemma single_thread_row_filled (http : Http) (index : nat) (row : list cell) :
  filled row → single_thread_row http row = metrics_of http (index, row).
Proof.
  intros (c0 & c1 & rest & -> & Hc0 & Hc1).
  unfold single_thread_row, metrics_of, task_of, process_single_row.
  cbn [iloc lookup list_lookup fst snd default id isna]. rewrite Hc0, Hc1. cbn [orb].
  destruct (negb _ || negb _); [done|].
  by destruct (fetch_token_data http _ _).
Qed.

(** X10.  On a sheet in whose rows the network and the address cell hold a
    value, the single-threaded run does what the run with the pool does, in
    whatever order the workers of the pool finish: both raise the same, or
    neither returns, or both save and return the same table. *)
Theorem process_excel_file_single_thread_agrees (disk : Disk) (http : Http)
    (as_completed : list future → list future) (excel_file : string) :
  (∀ l, as_completed l ≡ₚ l) →
  (∀ sh, read_excel disk excel_file = inr sh →
     Forall (fun raw => filled (input_row (length (header sh)) raw)) (body sh)) →
  process_excel_file_single_thread disk http excel_file =
  process_excel_file disk http as_completed excel_file.
Proof.
  intros Hperm Hfilled.
  rewrite process_excel_file_single_thread_prepare.
  destruct (prepare disk excel_file) as [df0| |] eqn:Hp;
    [|by rewrite process_excel_file_prepare, Hp..].
  rewrite (process_excel_file_any_order disk http _ excel_file df0 Hperm Hp).
  cbn [obind]. f_equal.
  destruct (prepare_returns _ _ _ Hp) as (sh & h0 & h1 & Hread & Hw & Hcols & Hrows).
  rewrite single_thread_loop_rows; [|rewrite Hrows, input_rows_labels; apply NoDup_seq].
  unfold final_table. f_equal. apply map_ext_in. intros r Hr.
  rewrite Hrows in Hr. apply list_elem_of_In, list_elem_of_lookup in Hr as [i Hi].
  rewrite list_lookup_imap in Hi.
  destruct (body sh !! i) as [raw|] eqn:Hraw; [|discriminate]. injection Hi as <-.
  cbn [fst snd]. rewrite (single_thread_row_filled http i); [done|].
  specialize (Hfilled sh Hread). rewrite Forall_lookup in Hfilled. by eapply Hfilled.
Qed.

(** X11.  A missing network cell is where the two runs part: the worker
    of the pool answers with the default and asks the server for nothing,
    the single-threaded loop turns the cell into text first and fetches the
    row under that text, [nan] or [None]. *)
Theorem single_thread_row_missing_network (http : Http) (index : nat)
    (network address : cell) (rest : list cell) :
  isna network = true →
  strip (str address) ≠ "" →
  process_single_row http (index, network, address) = (index, ("0", "0", "0")) ∧
  single_thread_row http (network :: address :: rest) =
  match fetch_token_data http (str network) (strip (str address)) with
  | inr m => m
  | inl _ => ("0", "0", "0")
  end.
Proof.
  intros Hn Ha. split.
  - unfold process_single_row. by rewrite Hn.
  - unfold single_thread_row. cbn [iloc lookup list_lookup isna orb].
    assert (strip (str network) = str network) as -> by (by destruct network).
    assert (truthy (str network) = true) as -> by (by destruct network).
    destruct (strip (str address)); [done|]. reflexivity.
Qed.

Lemma prepare_wide (disk : Disk) (excel_file : string) (sh : sheet) :
  read_excel disk excel_file = inr sh →
  (5 < length (header sh))%nat →
  prepare disk excel_file = Raises ValueError.
Proof.
  intros Hread Hw. unfold prepare, load_excel_data. rewrite Hread. cbn [obind].
  unfold ensure_columns. cbn [of_sheet columns].
  replace (5 - length (header sh))%nat with 0%nat by lia.
  cbn [pad_columns obind]. unfold set_columns. cbn [of_sheet columns].
  destruct (Nat.eqb_spec (length (take 2 (header sh) ++ ["FDV"; "Liquidity"; "24h Volume"]))
              (length (header sh))) as [E|]; [|done].
  rewrite length_app, length_take in E. cbn [length] in E. lia.
Qed.

Lemma prepare_clash (disk : Disk) (excel_file : string) (sh : sheet) :
  read_excel disk excel_file = inr sh →
  (length (header sh) < 5)%nat →
  column_name (length (header sh)) ∈ header sh →
  prepare disk excel_file = Diverges.
Proof.
  intros Hread Hw Hin. unfold prepare, load_excel_data. rewrite Hread. cbn [obind].
  unfold ensure_columns. cbn [of_sheet columns].
  destruct (5 - length (header sh))%nat as [|k] eqn:Ek; [lia|].
  cbn [pad_columns columns]. fold (column_name (length (header sh))).
  by rewrite (bool_decide_eq_true_2 _ Hin).
Qed.

(** X12.  A sheet of more than five columns stops either run with a
    ValueError when the columns are renamed, before any row is looked at
    and whatever the server would answer. *)
Theorem process_excel_file_rejects_wide_sheet (disk : Disk) (http : Http)
    (as_completed : list future → list future) (excel_file : string) (sh : sheet) :
  read_excel disk excel_file = inr sh →
  (5 < length (header sh))%nat →
  process_excel_file disk http as_completed excel_file = Raises ValueError ∧
  process_excel_file_single_thread disk http excel_file = Raises ValueError.
Proof.
  intros Hread Hw.
  rewrite process_excel_file_prepare, process_excel_file_single_thread_prepare.
  by rewrite (prepare_wide disk excel_file sh Hread Hw).
Qed.

(** X13.  A sheet of fewer than five columns one of which already has the
    name that the padding gives to the next column never gets out of the
    padding loop: the assignment overwrites that column, the table does
    not grow, and neither run returns or raises. *)
Theorem process_excel_file_padding_never_ends (disk : Disk) (http : Http)
    (as_completed : list future → list future) (excel_file : string) (sh : sheet) :
  read_excel disk excel_file = inr sh →
  (length (header sh) < 5)%nat →
  column_name (length (header sh)) ∈ header sh →
  process_excel_file disk http as_completed excel_file = Diverges ∧
  process_excel_file_single_thread disk http excel_file = Diverges.
Proof.
  intros Hread Hw Hin.
  rewrite process_excel_file_prepare, process_excel_file_single_thread_prepare.
  by rewrite (prepare_clash disk excel_file sh Hread Hw Hin).
Qed.

End SingleThread.

Lemma process_excel_file_every_row_answered_witness :
  (∀ l : list future, reverse l ≡ₚ l) ∧
  @process_excel_file empty_soup no_script_matches pool_disk pool_http reverse "test.xlsx" =
    Returns pool_result ∧
  ∃ sh, read_excel pool_disk "test.xlsx" = inr sh ∧
        length (rows pool_result) = length (body sh).
Proof.
  split; [intros l; apply reverse_Permutation|]. split; [vm_compute; reflexivity|].
  destruct (@process_excel_file_every_row_answered empty_soup no_script_matches
              pool_disk pool_http reverse "test.xlsx" pool_result)
    as (sh & Hread & Hlen & _).
  - intros l. apply reverse_Permutation.
  - vm_compute. reflexivity.
  - exists sh. split; [exact Hread|exact Hlen].
Defined.

Lemma process_excel_file_keeps_inputs_witness :
  (∀ l : list future, reverse l ≡ₚ l) ∧
  @process_excel_file empty_soup no_script_matches pool_disk pool_http reverse "test.xlsx" =
    Returns pool_result ∧
  ∃ sh h0 h1, read_excel pool_disk "test.xlsx" = inr sh ∧
              columns pool_result = [h0; h1; "FDV"; "Liquidity"; "24h Volume"].
Proof.
  split; [intros l; apply reverse_Permutation|]. split; [vm_compute; reflexivity|].
  destruct (@process_excel_file_keeps_inputs empty_soup no_script_matches
              pool_disk pool_http reverse "test.xlsx" pool_result)
    as (sh & h0 & h1 & Hread & _ & Hcols & _).
  - intros l. apply reverse_Permutation.
  - vm_compute. reflexivity.
  - exists sh, h0, h1. split; [exact Hread|exact Hcols].
Defined.

Lemma filled_sheet_filled (sh : sheet) :
  read_excel (disk_with filled_sheet) "test.xlsx" = inr sh →
  Forall (fun raw => filled (input_row (length (header sh)) raw)) (body sh).
Proof.
  intros Hread. assert (sh = filled_sheet) as -> by (by injection Hread).
  repeat constructor; eexists _, _, _; (split; [reflexivity|done]).
Qed.

Lemma process_excel_file_single_thread_agrees_witness :
  @process_excel_file_single_thread empty_soup no_script_matches
    (disk_with filled_sheet) pool_http "test.xlsx" =
  @process_excel_file empty_soup no_script_matches
    (disk_with filled_sheet) pool_http reverse "test.xlsx".
Proof.
  apply (@process_excel_file_single_thread_agrees empty_soup no_script_matches
           (disk_with filled_sheet) pool_http reverse "test.xlsx").
  - intros l. apply reverse_Permutation.
  - apply filled_sheet_filled.
Defined.

Lemma single_thread_row_missing_network_witness :
  @process_single_row empty_soup no_script_matches serving (0%nat, NaN, Val "0xaaa") =
    (0%nat, ("0", "0", "0")) ∧
  @single_thread_row empty_soup no_script_matches serving [NaN; Val "0xaaa"] =
    ("$1.2M", "$500K", "$45.3K").
Proof.
  destruct (@single_thread_row_missing_network empty_soup no_script_matches
              serving 0%nat NaN (Val "0xaaa") []) as [Hpool Hsingle].
  - reflexivity.
  - vm_compute. discriminate.
  - split; [exact Hpool|]. vm_compute. reflexivity.
Defined.

Lemma process_excel_file_rejects_wide_sheet_witness :
  @process_excel_file empty_soup no_script_matches (disk_with wide_sheet) pool_http id
    "test.xlsx" = Raises ValueError ∧
  @process_excel_file_single_thread empty_soup no_script_matches (disk_with wide_sheet)
    pool_http "test.xlsx" = Raises ValueError.
Proof.
  apply (@process_excel_file_rejects_wide_sheet empty_soup no_script_matches
           (disk_with wide_sheet) pool_http id "test.xlsx" wide_sheet).
  - reflexivity.
  - vm_compute. lia.
Defined.

Lemma process_excel_file_padding_never_ends_witness :
  @process_excel_file empty_soup no_script_matches (disk_with clashing_sheet) pool_http id
    "test.xlsx" = Diverges ∧
  @process_excel_file_single_thread empty_soup no_script_matches (disk_with clashing_sheet)
    pool_http "test.xlsx" = Diverges.
Proof.
  apply (@process_excel_file_padding_never_ends empty_soup no_script_matches
           (disk_with clashing_sheet) pool_http id "test.xlsx" clashing_sheet).
  - reflexivity.
  - vm_compute. lia.
  - vm_compute. do 2 apply list_elem_of_further. apply list_elem_of_here.
Defined.

(* ===================================================================== *)
(** * More on get_decimals.py                                            *)
(* ===================================================================== *)

(** X14.  [call_contract_method] posts exactly one request, the one it was
    asked for, and returns a value only from a response with status 200
    whose body is a JSON object with a member [result] that is truthy: that
    member.  Everything else, an exception of the transport included,
    gives [None]. *)
Theorem call_contract_method_result (rpc : Rpc)
    (rpc_url contract_address method_signature : string) :
  let payload := {| url := rpc_url; to := contract_address; data := method_signature |} in
  events (call_contract_method rpc rpc_url contract_address method_signature) = [payload] ∧
  ∀ r, value (call_contract_method rpc rpc_url contract_address method_signature) = Some r ↔
       ∃ resp members,
         rpc payload = inr resp ∧ status_code resp = 200 ∧
         json_body resp = inr (JDict members) ∧
         dict_get "result" members = Some r ∧ json_truthy r = true.
Proof.
  cbv zeta. split; [reflexivity|]. intros r.
  unfold call_contract_method. cbn [bind emit ret value fst].
  destruct (rpc _) as [e|resp] eqn:Hrpc.
  { split; [done|]. by intros (resp & members & [=] & _). }
  split.
  - unfold read_result. destruct (Z.eqb_spec (status_code resp) 200) as [Hs|]; [|done].
    destruct (json_body resp) as [e|v] eqn:Hb; [done|].
    destruct v as [|b|n|z|s|l|d]; cbn [contains_result getitem_result]; try done.
    + by destruct (contains _ _).
    + by destruct (existsb _ l).
    + destruct (dict_get "result" d) as [w|] eqn:Hd.
      * rewrite bool_decide_eq_true_2 by by eexists.
        destruct (json_truthy w) eqn:Hw; [|done].
        intros [= <-]. by exists resp, d.
      * rewrite bool_decide_eq_false_2; [done|]. by intros [? [=]].
  - intros (resp' & members & [= <-] & Hs & Hb & Hd & Hw).
    rewrite (read_result_dict resp members Hs Hb), Hd. by rewrite Hw.
Qed.

Lemma get_token_decimals_events (rpc : Rpc) (network address : string) :
  events (get_token_decimals rpc network address) =
  match get_rpc_endpoint network with
  | Some endpoint => [decimals_request endpoint address]
  | None => []
  end.
Proof.
  destruct (get_rpc_endpoint network) as [endpoint|] eqn:He.
  - by rewrite (get_token_decimals_supported rpc network address endpoint He).
  - unfold get_token_decimals. by rewrite He.
Qed.

(** X15.  [get_token_decimals] never retries and never posts anything but
    the [decimals()] call: it sends at most one request, and a request it
    sends goes to the endpoint configured for the network, in whatever case
    the network is written, carries the selector [0x313ce567], and is
    addressed to the contract with the prefix [0x], added when the address
    came without it. *)
Theorem get_token_decimals_request (rpc : Rpc) (network address : string) :
  (length (events (get_token_decimals rpc network address)) ≤ 1)%nat ∧
  ∀ request, request ∈ events (get_token_decimals rpc network address) →
    rpc_endpoints !! lower network = Some (url request) ∧
    data request = "0x313ce567" ∧
    startswith (to request) "0x" = true ∧
    (to request = address ∨ to request = "0x" +:+ address).
Proof.
  rewrite get_token_decimals_events.
  destruct (get_rpc_endpoint network) as [endpoint|] eqn:He.
  - split; [cbn; lia|]. intros request ->%list_elem_of_singleton.
    unfold decimals_request. cbn [url to data]. split; [done|]. split; [done|].
    destruct (startswith address "0x") eqn:Hp; [by auto|].
    split; [reflexivity|by right].
  - split; [cbn; lia|]. by intros request Hin%elem_of_nil.
Qed.


(** X16.  A row sends nothing and gets 18 where a cell is missing from
    it, where its network or its address reads [nan], as an empty cell of
    the sheet does, and where its network is not one of the configured
    ones. *)
Theorem process_row_silent (rpc : Rpc) (row : list cell) :
  (length row < 2)%nat ∨
  (∃ c, (row !! 0%nat = Some c ∨ row !! 1%nat = Some c) ∧ strip (str c) = "nan") ∨
  (∃ c, row !! 0%nat = Some c ∧ get_rpc_endpoint (strip (str c)) = None) →
  process_row rpc row = (18, []).
Proof.
  unfold process_row, iloc. intros Hrow.
  destruct row as [|c0 [|c1 rest]]; [done..|]. cbn [lookup list_lookup].
  destruct Hrow as [Hlen|[(c & [Hc|Hc] & Hnan)|(c & Hc & Hnone)]].
  - cbn [length] in Hlen. lia.
  - injection Hc as <-. by rewrite Hnan.
  - injection Hc as <-. rewrite Hnan. cbn [isna orb].
    by destruct (String.eqb (strip (str c0)) "nan").
  - injection Hc as <-. destruct (_ || _); [done|].
    unfold get_token_decimals. by rewrite Hnone.
Qed.

Lemma process_row_silent_witness :
  process_row (answers "0x06") [Val "bsc"] = (18, []) ∧
  process_row (answers "0x06") [NaN; Val usdt_bsc] = (18, []) ∧
  process_row (answers "0x06") [Val "solana"; Val usdt_bsc] = (18, []).
Proof.
  split; [|split].
  - apply (process_row_silent (answers "0x06") [Val "bsc"]). left. cbn. lia.
  - apply (process_row_silent (answers "0x06") [NaN; Val usdt_bsc]). right; left.
    exists NaN. split; [by left|reflexivity].
  - apply (process_row_silent (answers "0x06") [Val "solana"; Val usdt_bsc]). right; right.
    exists (Val "solana"). split; reflexivity.
Defined.

(** ** The loop of process_excel *)

Lemma process_rows_acc (rpc : Rpc) (rs : list (nat * list cell)) (d : DataFrame)
    (t : list rpc_request) :
  fold_left
    (fun acc r =>
       df' <~ acc;
       decimals <~ process_row rpc r.2;
       ret (loc_set df' r.1 "decimals" (Num decimals)))
    rs (d, t) =
  (fold_left (fun d r => apply_writes d r.1 [("decimals", Num (value (process_row rpc r.2)))])
             rs d,
   t ++ flat_map (fun r => events (process_row rpc r.2)) rs).
Proof.
  set (F := fun (acc : Traced rpc_request DataFrame) (r : nat * list cell) =>
              df' <~ acc;
              decimals <~ process_row rpc r.2;
              ret (loc_set df' r.1 "decimals" (Num decimals))).
  revert d t. induction rs as [|r rs IH]; intros d t; cbn [fold_left flat_map].
  - by rewrite app_nil_r.
  - assert (F (d, t) r =
            (apply_writes d r.1 [("decimals", Num (value (process_row rpc r.2)))],
             t ++ events (process_row rpc r.2))) as ->.
    { unfold F, bind, ret. destruct (process_row rpc r.2) as [decimals t1].
      cbn [value events fst snd apply_writes fold_left]. by rewrite app_nil_r. }
    rewrite IH. by rewrite app_assoc.
Qed.

Lemma imap_labels {A} (f : nat → A → list cell) (l : list A) :
  map fst (imap (fun i x => (i, f i x)) l) = seq 0 (length l).
Proof.
  rewrite map_is_fmap, fmap_imap.
  rewrite <- (list_fmap_id (seq 0 (length l))).
  apply (imap_seq l id 0%nat).
Qed.




Lemma add_decimals_column_fresh (sh : sheet) :
  "decimals" ∉ header sh →
  add_decimals_column (of_sheet sh) =
  {| columns := header sh ++ ["decimals"];
     rows := imap (fun i raw => (i, decimals_row (length (header sh)) raw)) (body sh) |}.
Proof.
  intros Hnot. unfold add_decimals_column, setitem_none. cbn [of_sheet columns rows].
  rewrite !bool_decide_eq_false_2 by done. f_equal.
  rewrite map_is_fmap, fmap_imap. by apply imap_ext.
Qed.

(** The loop of [process_excel] on a sheet without a column [decimals], as
    one assignment to each row and the requests of the rows one after the
    other. *)
Lemma process_excel_loop_fold (rpc : Rpc) (sh : sheet) :
  "decimals" ∉ header sh →
  let table := imap (fun i raw => (i, decimals_row (length (header sh)) raw)) (body sh) in
  process_excel_loop rpc sh =
  ({| columns := header sh ++ ["decimals"];
      rows := map (fun r => (r.1, set_cells (header sh ++ ["decimals"]) "decimals"
                                    (Num (value (process_row rpc r.2))) r.2))
                  table |},
   flat_map (fun r => events (process_row rpc r.2)) table).
Proof.
  intros Hnot. cbv zeta. unfold process_excel_loop, process_rows, iterrows.
  rewrite (add_decimals_column_fresh sh Hnot). cbn [rows]. unfold ret.
  rewrite process_rows_acc. cbn [app].
  pose proof (sequential_writes
                (fun r => [("decimals", Num (value (process_row rpc r.2)))])
                (header sh ++ ["decimals"])
                (imap (fun i raw => (i, decimals_row (length (header sh)) raw)) (body sh))
                []) as Hs.
  cbn [app] in Hs. by rewrite Hs; [|rewrite imap_labels; apply NoDup_seq].
Qed.



(** ** The whole of process_excel *)

Lemma insert_row_ascending (rs : list (nat * list cell)) (k : nat) :
  map fst rs = seq k (length rs) → foldr insert_row [] rs = rs.
Proof.
  revert k. induction rs as [|r rs IH]; intros k Hk; [done|].
  cbn [map length seq] in Hk. injection Hk as Hr Hrs.
  cbn [foldr]. rewrite (IH (S k) Hrs).
  destruct rs as [|r' rs]; [done|]. cbn [insert_row].
  cbn [map length seq] in Hrs. injection Hrs as Hr' _.
  rewrite Hr, Hr'. by rewrite (leb_correct k (S k)) by lia.
Qed.

Lemma process_excel_loop_sorted (rpc : Rpc) (sh : sheet) :
  "decimals" ∉ header sh →
  sort_index (value (process_excel_loop rpc sh)) = value (process_excel_loop rpc sh).
Proof.
  intros Hnot. rewrite (process_excel_loop_fold rpc sh Hnot).
  cbn [value fst]. unfold sort_index. cbn [columns rows]. f_equal.
  apply (insert_row_ascending _ 0).
  rewrite map_map. cbn [fst].
  rewrite (imap_labels (fun _ raw => decimals_row (length (header sh)) raw)).
  by rewrite length_map, length_imap.
Qed.

(** X18.  No endpoint can make [process_excel] fail.  For a sheet that can
    be read and has no column [decimals] yet, whatever the endpoints
    answer: where both files can be written, the run posts the requests of
    its rows, writes the sheet as it was read to the backup and then the
    table of the loop, in the order of the sheet, to the result file, and
    returns that table; where the backup cannot be written, the requests
    have been posted all the same, the result file is not written and
    the result is [None]. *)
Theorem process_excel_survives_endpoints (read_excel : string → exn + sheet)
    (to_excel : string → DataFrame → option exn) (rpc : Rpc) (excel_file : string)
    (sh : sheet) :
  read_excel excel_file = inr sh →
  "decimals" ∉ header sh →
  let backup_file := replace excel_file ".xlsx" "_backup.xlsx" in
  let output_file := replace excel_file ".xlsx" "_with_decimals.xlsx" in
  let run := process_excel_loop rpc sh in
  (to_excel backup_file (of_sheet sh) = None →
   to_excel output_file (value run) = None →
   process_excel read_excel to_excel rpc excel_file =
   (Some (value run),
    map Posted (events run) ++
    [Written backup_file (of_sheet sh); Written output_file (value run)])) ∧
  (∀ e, to_excel backup_file (of_sheet sh) = Some e →
   process_excel read_excel to_excel rpc excel_file = (None, map Posted (events run))).
Proof.
  intros Hread Hnot. cbv zeta. unfold process_excel. rewrite Hread.
  pose proof (process_excel_loop_sorted rpc sh Hnot) as Hsorted.
  destruct (process_excel_loop rpc sh) as [df requests].
  cbn [value events fst snd] in *.
  split.
  - intros Hb Ho. cbn [bind emit ret]. rewrite Hb. rewrite Hsorted, Ho.
    reflexivity.
  - intros e Hb. cbn [bind emit ret]. rewrite Hb. cbn [ret]. by rewrite app_nil_r.
Qed.

Lemma process_excel_survives_endpoints_witness :
  process_excel (reading decimals_sheet) writable unreachable "tokens.xlsx" =
  (Some {| columns := ["network"; "address"; "decimals"];
           rows := [ (0%nat, [Val "bsc"; Val usdt_bsc; Num 18]);
                     (1%nat, [Val "solana"; Val "x"; Num 18]);
                     (2%nat, [Val "ethereum"; NaN; Num 18]) ] |},
   [ Posted {| url := "https://bsc-dataseed.binance.org"; to := usdt_bsc;
               data := "0x313ce567" |};
     Written "tokens_backup.xlsx" (of_sheet decimals_sheet);
     Written "tokens_with_decimals.xlsx"
       {| columns := ["network"; "address"; "decimals"];
          rows := [ (0%nat, [Val "bsc"; Val usdt_bsc; Num 18]);
                    (1%nat, [Val "solana"; Val "x"; Num 18]);
                    (2%nat, [Val "ethereum"; NaN; Num 18]) ] |} ]).
Proof.
  assert (Hnot : "decimals" ∉ header decimals_sheet).
  { cbn [decimals_sheet header]. intros Hin. rewrite !elem_of_cons, elem_of_nil in Hin.
    destruct Hin as [?|[?|[]]]; discriminate. }
  destruct (process_excel_survives_endpoints (reading decimals_sheet) writable
              unreachable "tokens.xlsx" decimals_sheet eq_refl Hnot) as [Hrun _].
  rewrite (Hrun eq_refl eq_refl). vm_compute. reflexivity.
Defined.

(** ** The range of hex_to_decimal *)

Lemma digit_value_range (c : ascii) : 0 ≤ digit_value c ≤ 15.
Proof.
  unfold digit_value, hex_digit.
  repeat match goal with
         | |- context [if ?b then _ else _] => destruct b eqn:?
         end; lia.
Qed.

Lemma big_endian_range (d : string) :
  0 ≤ big_endian d < 16 ^ Z.of_nat (String.length d).
Proof.
  induction d as [|c d IH]; [cbn; lia|].
  cbn [big_endian]. rewrite length_cons, Nat2Z.inj_succ, Z.pow_succ_r by lia.
  pose proof (digit_value_range c). nia.
Qed.

(** X19.  A result of hexadecimal digits, with the prefix [0x] or without
    it, is never decoded to a negative number nor to one of more digits
    than it has: the value lies between 0 and 16 to the number of its
    digits. *)
Theorem hex_to_decimal_range (d : string) :
  is_hex_digits d = true →
  0 ≤ hex_to_decimal (JStr ("0x" +:+ d)) < 16 ^ Z.of_nat (String.length d) ∧
  0 ≤ hex_to_decimal (JStr d) < 16 ^ Z.of_nat (String.length d).
Proof.
  intros Hd. destruct (hex_to_decimal_digits d Hd) as [-> ->].
  split; apply big_endian_range.
Qed.

Lemma hex_to_decimal_range_witness :
  0 ≤ hex_to_decimal (JStr "0x0012") < 16 ^ 4 ∧
  0 ≤ hex_to_decimal (JStr "0012") < 16 ^ 4.
Proof. apply (hex_to_decimal_range "0012"). reflexivity. Defined.

(** X20.  The prefix is recognised in lower case only: a result that
    begins with [0X] is answered with 18, whatever follows. *)
Theorem hex_to_decimal_upper_prefix (d : string) :
  hex_to_decimal (JStr ("0X" +:+ d)) = 18.
Proof.
  unfold hex_to_decimal. rewrite hex_to_decimal_try_str.
  change ("0X" +:+ d) with (String "0" (String "X" d)).
  change (startswith (String "0" (String "X" d)) "0x") with false. cbv iota.
  unfold decode_tail.
  change (lstrip_zeros (String "0" (String "X" d))) with (String "X" d).
  cbn [truthy negb]. unfold int16.
  change (lstrip_chars int_space (String "X" d)) with (String "X" d).
  change (strip_sign (String "X" d)) with (1, String "X" d). cbv beta iota zeta.
  assert (strip_0x (String "X" d) = String "X" d) as -> by (by destruct d).
  change (startswith (String "X" d) "_") with false. cbv iota.
  reflexivity.
Qed.

(* ===================================================================== *)
(** * Strategy 4 in the pipeline                                         *)
(* ===================================================================== *)

Section LastResort.
Context `{BS4} `{Regex}.

Lemma not_script_data (t : list strategy) :
  Forall (fun s => s ≠ ScriptData) t → ScriptData ∉ t.
Proof. intros Ht Hin. by apply (proj1 (Forall_forall _ _) Ht ScriptData). Qed.

(** X21.  Strategy 4 is the last resort and brings nothing: it runs only
    after strategies 1, 2 and 3 have all come back empty-handed, and then
    the result is ("0", "0", "0"). *)
Theorem parse_html_data_script_data_last (html : string) :
  ScriptData ∈ events (parse_html_data html) →
  value (parse_html_data html) = ("0", "0", "0") ∧
  extract_all_values_by_pattern html = ("0", "0", "0") ∧
  Forall (fun label => truthy_opt (extract_value_by_pattern html label) = false)
         ["FDV"; "liq"; "24h VOL"] ∧
  ∀ sp, BeautifulSoup html = Some sp →
    Forall (fun keywords => truthy_opt (extract_value_by_class sp keywords) = false)
           [["fdv"; "market-cap"; "fully-diluted"]; ["liquidity"; "liq"];
            ["volume"; "24h-volume"; "vol"]].
Proof.
  unfold parse_html_data.
  destruct (BeautifulSoup html) as [sp|]; [|by intros ?%elem_of_nil].
  rewrite events_bind, value_bind. cbn [emit value events fst snd].
  destruct (extract_all_values_by_pattern html) as [[f l] v] eqn:E1.
  destruct (String.eqb f "0" && String.eqb l "0" && String.eqb v "0") eqn:Ez.
  2:{ intros Hin. exfalso. revert Hin. apply not_script_data. repeat constructor; done. }
  apply zeros_eqb in Ez. injection Ez as -> -> ->.
  rewrite !events_bind, !value_bind. cbn [emit ret value events fst snd].
  set (a := extract_value_by_pattern html "FDV").
  set (b := extract_value_by_pattern html "liq").
  set (c := extract_value_by_pattern html "24h VOL").
  set (a' := extract_value_by_class sp ["fdv"; "market-cap"; "fully-diluted"]).
  set (b' := extract_value_by_class sp ["liquidity"; "liq"]).
  set (c' := extract_value_by_class sp ["volume"; "24h-volume"; "vol"]).
  destruct (truthy_opt a) eqn:Ea, (truthy_opt b) eqn:Eb, (truthy_opt c) eqn:Ec,
    (truthy_opt a') eqn:Ea', (truthy_opt b') eqn:Eb', (truthy_opt c') eqn:Ec';
    cbn [negb emit ret value events fst snd orb app];
    rewrite ?Ea, ?Eb, ?Ec, ?Ea', ?Eb', ?Ec';
    cbn [negb emit ret value events fst snd orb app];
    try (intros Hin; exfalso; revert Hin; apply not_script_data;
         repeat constructor; done).
  intros _. split; [reflexivity|]. split; [reflexivity|]. split.
  - repeat constructor; done.
  - intros sp0 [= <-]. repeat constructor; done.
Qed.

End LastResort.

Lemma parse_html_data_script_data_last_witness :
  ScriptData ∈ events (@parse_html_data empty_soup no_script_matches "<html></html>") ∧
  value (@parse_html_data empty_soup no_script_matches "<html></html>") = ("0", "0", "0").
Proof.
  assert (Hin : ScriptData ∈
                events (@parse_html_data empty_soup no_script_matches "<html></html>")).
  { vm_compute. repeat first [apply list_elem_of_here | apply list_elem_of_further]. }
  split; [exact Hin|].
  exact (proj1 (@parse_html_data_script_data_last empty_soup no_script_matches
                  "<html></html>" Hin)).
Defined.

Section SingleThreadRows.
Context `{BS4} `{Regex}.



End SingleThreadRows.

